(** * Practice session store (packages/app/src/store/practice/practice.ts)

    A shallow embedding of the Vuex module [PracticeModule]: its state
    record, its mutations (pure state updates), its actions (which commit
    mutations, dispatch other actions and talk to the browser's timers),
    and the properties of the practice session that follow.

    Modelling conventions.
    - A JavaScript [number] that holds a counter, a duration in seconds or
      a timer id is an integer here ([Z]); the store never produces a
      fractional value from integral ones.
    - The browser's timers are a finite map from timer id to callback.  The
      ids handed out by [setInterval]/[setTimeout] are positive and never
      reused; [clearInterval] on an id that names no timer does nothing.
    - [evaluate] (mathjs) and [generateExpressionChallenge] (the challenge
      engine) live outside this module; they are parameters of the
      development.  [evaluate] may throw. *)

From stdpp Require Import gmap strings list fin_maps.
From Stdlib Require Import ZArith Lia.

Local Open Scope Z_scope.

(** ** Imported models *)

(** Modelled from the spec: [Difficulty] is declared in
    engine/models/math_question, which is not part of the sources at hand;
    the spec describes it as an ordered enum "Easy/Normal/Hard", and the
    store's initial state uses [Difficulty.Normal]. *)
Inductive Difficulty := Easy | Normal | Hard.

(** Modelled from the spec: [PracticeMode] is declared in
    engine/models/math_question; the store only names [PracticeMode.TIME],
    the spec gives the two modes "ByTime" and "ByQuestionCount". *)
Inductive PracticeMode := TIME | QUESTIONS.

(** Modelled from the spec: [Operator] is declared in
    engine/math_questions/expression/models; the store names
    [Operator.Addition] and [Operator.Subtraction], the spec speaks of
    "allowed operator symbols" of arithmetic. *)
Inductive Operator := Addition | Subtraction | Multiplication | Division.

(** Modelled from the spec: [ChallengeType] is declared in
    engine/models/math_question; the store only moves values of it around,
    so a member of the enum is represented by its tag. *)
Definition ChallengeType := N.

#[global] Instance Difficulty_eq_dec : EqDecision Difficulty.
Proof. solve_decision. Defined.
#[global] Instance PracticeMode_eq_dec : EqDecision PracticeMode.
Proof. solve_decision. Defined.
#[global] Instance Operator_eq_dec : EqDecision Operator.
Proof. solve_decision. Defined.

(** [ChallengeModel]: the store reads the fields [latex] and [infix].  The
    initial question is the empty object [{}], whose fields are
    [undefined]; that is [None] here. *)
Record ChallengeModel := {
  latex : option string;
  infix : option string
}.

(** What a template literal prints for a field that may be undefined. *)
Definition interpolate (v : option string) : string :=
  match v with
  | Some s => s
  | None => "undefined"
  end.

(** ** Interfaces of the module *)

Record PracticeOptions := {
  opt_difficulty : Difficulty;
  opt_operators : list Operator;
  opt_challengeTypes : list ChallengeType
}.

Inductive PracticeActions :=
| INIT
| NEW_QUESTION
| SET_ANSWER
| CHECK_ANSWER
| ON_CORRECT
| ON_INCORRECT
| SET_PRACTICE_MODE
| SET_PRACTICE_QUESTION_COUNT
| SET_PRACTICE_TIME
| SET_PRACTICE_TIMER_ID
| FINISH_PRACTICE_SESSION
| PRACTICE_TIME_TICK.

#[global] Instance PracticeActions_eq_dec : EqDecision PracticeActions.
Proof. solve_decision. Defined.

Record PracticeState := {
  question : ChallengeModel;
  difficulty : Difficulty;
  operators : list Operator;
  challengeTypes : list ChallengeType;
  answer : string;
  streak : Z;
  showingFeedback : bool;
  practiceMode : PracticeMode;
  practiceQuestionCount : Z;
  practiceTime : Z;
  practiceTimeLeft : Z;
  practiceCorrectQuestionCount : Z;
  practiceTimerId : Z
}.

(** ** Mutations *)

Module Mutations.

Definition setQuestion (q : ChallengeModel) (s : PracticeState) : PracticeState :=
  {| question := {| latex := latex q; infix := infix q |};
     difficulty := difficulty s; operators := operators s;
     challengeTypes := challengeTypes s; answer := answer s;
     streak := streak s; showingFeedback := showingFeedback s;
     practiceMode := practiceMode s;
     practiceQuestionCount := practiceQuestionCount s;
     practiceTime := practiceTime s; practiceTimeLeft := practiceTimeLeft s;
     practiceCorrectQuestionCount := practiceCorrectQuestionCount s;
     practiceTimerId := practiceTimerId s |}.

Definition setAnswer (a : string) (s : PracticeState) : PracticeState :=
  {| question := question s;
     difficulty := difficulty s; operators := operators s;
     challengeTypes := challengeTypes s; answer := a;
     streak := streak s; showingFeedback := showingFeedback s;
     practiceMode := practiceMode s;
     practiceQuestionCount := practiceQuestionCount s;
     practiceTime := practiceTime s; practiceTimeLeft := practiceTimeLeft s;
     practiceCorrectQuestionCount := practiceCorrectQuestionCount s;
     practiceTimerId := practiceTimerId s |}.

Definition setStreak (n : Z) (s : PracticeState) : PracticeState :=
  {| question := question s;
     difficulty := difficulty s; operators := operators s;
     challengeTypes := challengeTypes s; answer := answer s;
     streak := n; showingFeedback := showingFeedback s;
     practiceMode := practiceMode s;
     practiceQuestionCount := practiceQuestionCount s;
     practiceTime := practiceTime s; practiceTimeLeft := practiceTimeLeft s;
     practiceCorrectQuestionCount := practiceCorrectQuestionCount s;
     practiceTimerId := practiceTimerId s |}.

(** Stores the three options and restarts the countdown from the
    session's current [practiceTime]. *)
Definition setPracticeOptions (o : PracticeOptions) (s : PracticeState) : PracticeState :=
  {| question := question s;
     difficulty := opt_difficulty o; operators := opt_operators o;
     challengeTypes := opt_challengeTypes o; answer := answer s;
     streak := streak s; showingFeedback := showingFeedback s;
     practiceMode := practiceMode s;
     practiceQuestionCount := practiceQuestionCount s;
     practiceTime := practiceTime s; practiceTimeLeft := practiceTime s;
     practiceCorrectQuestionCount := practiceCorrectQuestionCount s;
     practiceTimerId := practiceTimerId s |}.

Definition setShowingFeedback (b : bool) (s : PracticeState) : PracticeState :=
  {| question := question s;
     difficulty := difficulty s; operators := operators s;
     challengeTypes := challengeTypes s; answer := answer s;
     streak := streak s; showingFeedback := b;
     practiceMode := practiceMode s;
     practiceQuestionCount := practiceQuestionCount s;
     practiceTime := practiceTime s; practiceTimeLeft := practiceTimeLeft s;
     practiceCorrectQuestionCount := practiceCorrectQuestionCount s;
     practiceTimerId := practiceTimerId s |}.

Definition with_operators (ops : list Operator) (s : PracticeState) : PracticeState :=
  {| question := question s;
     difficulty := difficulty s; operators := ops;
     challengeTypes := challengeTypes s; answer := answer s;
     streak := streak s; showingFeedback := showingFeedback s;
     practiceMode := practiceMode s;
     practiceQuestionCount := practiceQuestionCount s;
     practiceTime := practiceTime s; practiceTimeLeft := practiceTimeLeft s;
     practiceCorrectQuestionCount := practiceCorrectQuestionCount s;
     practiceTimerId := practiceTimerId s |}.

(** [state.operators.push(operator)]: appended at the end, whether or not
    it is there already. *)
Definition setOperatorEnabled (op : Operator) (s : PracticeState) : PracticeState :=
  with_operators (operators s ++ [op]) s.

(** [state.operators.filter(op => op !== operator)]. *)
Definition setOperatorDisabled (op : Operator) (s : PracticeState) : PracticeState :=
  with_operators (filter (λ o, o ≠ op) (operators s)) s.

Definition setPracticeMode (m : PracticeMode) (s : PracticeState) : PracticeState :=
  {| question := question s;
     difficulty := difficulty s; operators := operators s;
     challengeTypes := challengeTypes s; answer := answer s;
     streak := streak s; showingFeedback := showingFeedback s;
     practiceMode := m;
     practiceQuestionCount := practiceQuestionCount s;
     practiceTime := practiceTime s; practiceTimeLeft := practiceTimeLeft s;
     practiceCorrectQuestionCount := practiceCorrectQuestionCount s;
     practiceTimerId := practiceTimerId s |}.

Definition setPracticeQuestionCount (n : Z) (s : PracticeState) : PracticeState :=
  {| question := question s;
     difficulty := difficulty s; operators := operators s;
     challengeTypes := challengeTypes s; answer := answer s;
     streak := streak s; showingFeedback := showingFeedback s;
     practiceMode := practiceMode s;
     practiceQuestionCount := n;
     practiceTime := practiceTime s; practiceTimeLeft := practiceTimeLeft s;
     practiceCorrectQuestionCount := practiceCorrectQuestionCount s;
     practiceTimerId := practiceTimerId s |}.

(** Only [practiceTime] changes; the running countdown is left as it is. *)
Definition setPracticeTime (t : Z) (s : PracticeState) : PracticeState :=
  {| question := question s;
     difficulty := difficulty s; operators := operators s;
     challengeTypes := challengeTypes s; answer := answer s;
     streak := streak s; showingFeedback := showingFeedback s;
     practiceMode := practiceMode s;
     practiceQuestionCount := practiceQuestionCount s;
     practiceTime := t; practiceTimeLeft := practiceTimeLeft s;
     practiceCorrectQuestionCount := practiceCorrectQuestionCount s;
     practiceTimerId := practiceTimerId s |}.

Definition setPracticeTimeLeft (t : Z) (s : PracticeState) : PracticeState :=
  {| question := question s;
     difficulty := difficulty s; operators := operators s;
     challengeTypes := challengeTypes s; answer := answer s;
     streak := streak s; showingFeedback := showingFeedback s;
     practiceMode := practiceMode s;
     practiceQuestionCount := practiceQuestionCount s;
     practiceTime := practiceTime s; practiceTimeLeft := t;
     practiceCorrectQuestionCount := practiceCorrectQuestionCount s;
     practiceTimerId := practiceTimerId s |}.

(** The payload [count] is ignored: the mutation adds one to the stored
    counter. *)
Definition setPracticeCorrectQuestionCount (count : Z) (s : PracticeState) : PracticeState :=
  {| question := question s;
     difficulty := difficulty s; operators := operators s;
     challengeTypes := challengeTypes s; answer := answer s;
     streak := streak s; showingFeedback := showingFeedback s;
     practiceMode := practiceMode s;
     practiceQuestionCount := practiceQuestionCount s;
     practiceTime := practiceTime s; practiceTimeLeft := practiceTimeLeft s;
     practiceCorrectQuestionCount := practiceCorrectQuestionCount s + 1;
     practiceTimerId := practiceTimerId s |}.

Definition setPracticeTimerId (id : Z) (s : PracticeState) : PracticeState :=
  {| question := question s;
     difficulty := difficulty s; operators := operators s;
     challengeTypes := challengeTypes s; answer := answer s;
     streak := streak s; showingFeedback := showingFeedback s;
     practiceMode := practiceMode s;
     practiceQuestionCount := practiceQuestionCount s;
     practiceTime := practiceTime s; practiceTimeLeft := practiceTimeLeft s;
     practiceCorrectQuestionCount := practiceCorrectQuestionCount s;
     practiceTimerId := id |}.

Definition resetPracticeSession (s : PracticeState) : PracticeState :=
  {| question := question s;
     difficulty := difficulty s; operators := operators s;
     challengeTypes := challengeTypes s; answer := answer s;
     streak := 0; showingFeedback := showingFeedback s;
     practiceMode := practiceMode s;
     practiceQuestionCount := practiceQuestionCount s;
     practiceTime := practiceTime s; practiceTimeLeft := 0;
     practiceCorrectQuestionCount := 0;
     practiceTimerId := 0 |}.

End Mutations.

(** ** The store and the browser's timers *)

(** The two callbacks the module ever schedules: the interval of [init]
    dispatches [practiceTimeTick]; the timeout of [onCorrect] and
    [onIncorrect] commits [setShowingFeedback false]. *)
Inductive Callback := TickInterval | ClearFeedbackTimeout.

#[global] Instance Callback_eq_dec : EqDecision Callback.
Proof. solve_decision. Defined.

(** [timers] is the browser's map of active timers, [next_timer] the id
    the next [setInterval]/[setTimeout] returns, [draws] the number of
    challenges drawn so far from the (random) challenge engine. *)
Record Store := {
  state : PracticeState;
  timers : gmap positive Callback;
  next_timer : positive;
  draws : nat
}.

(** The result of running an action: [outcome] is [None] when an exception
    escaped, [final] is the store as the run left it, [dispatched] lists
    the actions dispatched during the run, in order. *)
Record Result (A : Type) := mkResult {
  outcome : option A;
  final : Store;
  dispatched : list PracticeActions
}.
Arguments mkResult {A} _ _ _.
Arguments outcome {A} _.
Arguments final {A} _.
Arguments dispatched {A} _.

Definition M (A : Type) : Type := Store → Result A.

#[global] Instance M_ret : MRet M := λ A a s, mkResult (Some a) s [].

(** Sequencing stops at the first exception; the dispatch logs add up. *)
#[global] Instance M_bind : MBind M := λ A B k m s,
  match m s with
  | mkResult None s' log => mkResult None s' log
  | mkResult (Some a) s' log =>
      match k a s' with
      | mkResult o s'' log' => mkResult o s'' (log ++ log')
      end
  end.

Definition throw {A} : M A := λ s, mkResult None s [].

Definition skip : M unit := mret tt.

(** [context.state] *)
Definition getState : M PracticeState := λ s, mkResult (Some (state s)) s [].

(** [context.commit(mutation, payload)] *)
Definition commit (mutation : PracticeState → PracticeState) : M unit := λ s,
  mkResult (Some tt)
    {| state := mutation (state s); timers := timers s;
       next_timer := next_timer s; draws := draws s |} [].

(** Entering an action through [context.dispatch]. *)
Definition dispatching {A} (a : PracticeActions) (body : M A) : M A := λ s,
  match body s with
  | mkResult o s' log => mkResult o s' (a :: log)
  end.

Definition schedule (cb : Callback) : M Z := λ s,
  mkResult (Some (Z.pos (next_timer s)))
    {| state := state s; timers := <[next_timer s := cb]> (timers s);
       next_timer := Pos.succ (next_timer s); draws := draws s |} [].

Definition setInterval : M Z := schedule TickInterval.
Definition setTimeout : M Z := schedule ClearFeedbackTimeout.

Definition cancel (id : Z) (ts : gmap positive Callback) : gmap positive Callback :=
  match id with
  | Z.pos p => delete p ts
  | _ => ts
  end.

Definition clearInterval (id : Z) : M unit := λ s,
  mkResult (Some tt)
    {| state := state s; timers := cancel id (timers s);
       next_timer := next_timer s; draws := draws s |} [].

(** ** External collaborators *)

(** What a call of mathjs' [evaluate] does: it returns a value, of which
    the store only looks at the truthiness, or it throws (a parse or an
    evaluation error). *)
Inductive Evaluation := Returns (truthy : bool) | Throws.

Section Practice.

(** The challenge engine; its third argument is the number of challenges
    drawn before, which stands for its source of randomness. *)
Variable generateExpressionChallenge : Difficulty → list Operator → nat → ChallengeModel.

(** mathjs. *)
Variable evaluate : string → Evaluation.

(** ** Actions *)

(** The module-level helper [newQuestion(difficulty, operators)]. *)
Definition newQuestion_helper (d : Difficulty) (ops : list Operator) : M ChallengeModel := λ s,
  mkResult (Some (generateExpressionChallenge d ops (draws s)))
    {| state := state s; timers := timers s;
       next_timer := next_timer s; draws := S (draws s) |} [].

Definition init (options : PracticeOptions) : M unit :=
  dispatching INIT (
    commit (Mutations.setPracticeOptions options);;
    st ← getState;
    if decide (practiceMode st = TIME) then
      practiceTimerId ← setInterval;
      commit (Mutations.setPracticeTimerId practiceTimerId)
    else mret tt).

Definition finishPracticeSession : M unit :=
  dispatching FINISH_PRACTICE_SESSION (
    st ← getState;
    clearInterval (practiceTimerId st);;
    commit Mutations.resetPracticeSession).

Definition practiceTimeTick : M unit :=
  dispatching PRACTICE_TIME_TICK (
    st ← getState;
    let newTimeLeft := practiceTimeLeft st - 1 in
    if decide (newTimeLeft = 0) then finishPracticeSession
    else commit (Mutations.setPracticeTimeLeft newTimeLeft)).

Definition newQuestion : M unit :=
  dispatching NEW_QUESTION (
    st ← getState;
    q ← newQuestion_helper (difficulty st) (operators st);
    commit (Mutations.setQuestion q)).

Definition setAnswer (a : string) : M unit :=
  dispatching SET_ANSWER (commit (Mutations.setAnswer a)).

Definition onCorrect : M unit :=
  dispatching ON_CORRECT (
    st ← getState;
    commit (Mutations.setPracticeCorrectQuestionCount (practiceCorrectQuestionCount st + 1));;
    st ← getState;
    commit (Mutations.setStreak (streak st + 1));;
    commit (Mutations.setAnswer "");;
    newQuestion;;
    commit (Mutations.setShowingFeedback true);;
    setTimeout;;
    mret tt).

Definition onIncorrect : M unit :=
  dispatching ON_INCORRECT (
    commit (Mutations.setStreak 0);;
    commit (Mutations.setAnswer "");;
    commit (Mutations.setShowingFeedback true);;
    setTimeout;;
    mret tt).

(** The text handed to [evaluate]: [`${answer} == ${question.infix}`]. *)
Definition equality_text (st : PracticeState) : string :=
  answer st +:+ " == " +:+ interpolate (infix (question st)).

(** No [try] surrounds the call of [evaluate]: when it throws, the
    exception leaves the action. *)
Definition checkAnswer : M unit :=
  dispatching CHECK_ANSWER (
    st ← getState;
    match evaluate (equality_text st) with
    | Throws => throw
    | Returns true => onCorrect
    | Returns false => onIncorrect
    end).

Definition setPracticeMode (mode : PracticeMode) : M unit :=
  dispatching SET_PRACTICE_MODE (commit (Mutations.setPracticeMode mode)).

Definition setPracticeQuestionCount (questionCount : Z) : M unit :=
  dispatching SET_PRACTICE_QUESTION_COUNT
    (commit (Mutations.setPracticeQuestionCount questionCount)).

Definition setPracticeTime (time : Z) : M unit :=
  dispatching SET_PRACTICE_TIME (commit (Mutations.setPracticeTime time)).

(** ** The module as its users drive it *)

(** What can happen to the store: an action of [PracticeActions] is
    dispatched with its payload, one of the two operator mutations is
    committed, or the browser fires a timer. *)
Inductive Event :=
| DispatchInit (options : PracticeOptions)
| DispatchNewQuestion
| DispatchSetAnswer (a : string)
| DispatchCheckAnswer
| DispatchOnCorrect
| DispatchOnIncorrect
| DispatchSetPracticeMode (mode : PracticeMode)
| DispatchSetPracticeQuestionCount (questionCount : Z)
| DispatchSetPracticeTime (time : Z)
| DispatchSetPracticeTimerId (id : Z)
| DispatchFinishPracticeSession
| DispatchPracticeTimeTick
| CommitSetOperatorEnabled (op : Operator)
| CommitSetOperatorDisabled (op : Operator)
| Fire (id : positive).

(** The browser runs the callback of timer [id]: an interval stays armed,
    a timeout is spent.  An id that names no timer fires nothing. *)
Definition fire (id : positive) : M unit := λ s,
  match timers s !! id with
  | Some TickInterval => practiceTimeTick s
  | Some ClearFeedbackTimeout =>
      (clearInterval (Z.pos id);;
       commit (Mutations.setShowingFeedback false)) s
  | None => skip s
  end.

(** [SET_PRACTICE_TIMER_ID] is ['setPracticeTimeId'], for which the module
    registers no action: dispatching it reaches no handler. *)
Definition step (e : Event) : M unit :=
  match e with
  | DispatchInit options => init options
  | DispatchNewQuestion => newQuestion
  | DispatchSetAnswer a => setAnswer a
  | DispatchCheckAnswer => checkAnswer
  | DispatchOnCorrect => onCorrect
  | DispatchOnIncorrect => onIncorrect
  | DispatchSetPracticeMode mode => setPracticeMode mode
  | DispatchSetPracticeQuestionCount n => setPracticeQuestionCount n
  | DispatchSetPracticeTime t => setPracticeTime t
  | DispatchSetPracticeTimerId _ => mret tt
  | DispatchFinishPracticeSession => finishPracticeSession
  | DispatchPracticeTimeTick => practiceTimeTick
  | CommitSetOperatorEnabled op => commit (Mutations.setOperatorEnabled op)
  | CommitSetOperatorDisabled op => commit (Mutations.setOperatorDisabled op)
  | Fire id => fire id
  end.

(** A run of events.  An exception ends the event it escapes from, not
    the store: the next event finds the store as the exception left it. *)
Fixpoint run (es : list Event) (s : Store) : Store :=
  match es with
  | [] => s
  | e :: es' => run es' (final (step e s))
  end.

(** The actions dispatched along a run. *)
Fixpoint run_log (es : list Event) (s : Store) : list PracticeActions :=
  match es with
  | [] => []
  | e :: es' => dispatched (step e s) ++ run_log es' (final (step e s))
  end.

(** ** Vocabulary of the session properties *)

(** Submitting the answer [text]: it is typed in, then checked. *)
Definition submission (text : string) : list Event :=
  [DispatchSetAnswer text; DispatchCheckAnswer].

Definition submissions (texts : list string) : list Event :=
  concat (submission <$> texts).

(** Each of [texts], submitted in turn from [s], is an answer that
    [evaluate] finds equal to the question then on display. *)
Fixpoint all_correct (texts : list string) (s : Store) : Prop :=
  match texts with
  | [] => True
  | text :: texts' =>
      evaluate (text +:+ " == " +:+ interpolate (infix (question (state s))))
        = Returns true ∧
      all_correct texts' (run (submission text) s)
  end.

(** [n] correct answers in a row, as the dispatches of [onCorrect] they
    come down to. *)
Definition correct_answers (n : nat) : list Event := replicate n DispatchOnCorrect.

(** [n] firings of timer [id]. *)
Definition firings (n : nat) (id : positive) : list Event := replicate n (Fire id).

(** The bound on the countdown, with the sign condition that keeps it. *)
Definition time_invariant (st : PracticeState) : Prop :=
  0 ≤ practiceTime st ∧ practiceTimeLeft st ≤ practiceTime st.

(** An event respects the countdown when, if it sets the practice time,
    the new time is not negative and not below the time left. *)
Definition respects_countdown (e : Event) (st : PracticeState) : Prop :=
  match e with
  | DispatchSetPracticeTime t => 0 ≤ t ∧ practiceTimeLeft st ≤ t
  | _ => True
  end.

(** Every event of the run respects the countdown in the state it finds. *)
Fixpoint countdown_respected (es : list Event) (s : Store) : Prop :=
  match es with
  | [] => True
  | e :: es' =>
      respects_countdown e (state s) ∧
      countdown_respected es' (final (step e s))
  end.

End Practice.

(** The session was terminated during a run with this dispatch log. *)
Definition terminated (log : list PracticeActions) : Prop :=
  FINISH_PRACTICE_SESSION ∈ log.

(** The tick sources alive in the browser. *)
Definition live_intervals (s : Store) : gmap positive Callback :=
  filter (λ kv, kv.2 = TickInterval) (timers s).


(** No tick source is armed. *)
Definition no_tick_source (s : Store) : Prop :=
  ∀ id, timers s !! id ≠ Some TickInterval.

(** The module's initial state, in a browser that has no timer yet. *)
Definition initial_state : PracticeState :=
  {| question := {| latex := None; infix := None |};
     difficulty := Normal;
     operators := [Addition; Subtraction];
     challengeTypes := [];
     answer := "";
     streak := 0;
     showingFeedback := false;
     practiceMode := TIME;
     practiceQuestionCount := 10;
     practiceTime := 10;
     practiceTimeLeft := 0;
     practiceCorrectQuestionCount := 0;
     practiceTimerId := 0 |}.

Definition initial_store : Store :=
  {| state := initial_state; timers := ∅; next_timer := 1%positive; draws := 0 |}.

(** ** Concrete collaborators for concrete runs *)

(** A challenge engine that alternates between two challenges. *)
Definition alternating_challenges (d : Difficulty) (ops : list Operator) (n : nat) : ChallengeModel :=
  if Nat.even n then {| latex := Some "1+2"; infix := Some "1 + 2" |}
  else {| latex := Some "7-4"; infix := Some "7 - 4" |}.

(** A verifier in the manner of mathjs on the texts the store builds: the
    text is cut at its first [" == "]; a side that is empty cannot be
    parsed (mathjs: "Value expected") and the call throws; otherwise the
    two sides are compared as texts. *)
Definition textual_evaluate (text : string) : Evaluation :=
  match String.index 0 " == " text with
  | None => Throws
  | Some i =>
      let lhs := String.substring 0 i text in
      let rhs := String.substring (i + 4) (String.length text - (i + 4)) text in
      if decide (lhs = "" ∨ rhs = "") then Throws
      else Returns (bool_decide (lhs = rhs))
  end.


Definition default_options : PracticeOptions :=
  {| opt_difficulty := Normal; opt_operators := [Addition];
     opt_challengeTypes := [] |}.

(** A session in time mode that has its first challenge on display. *)
Definition started_store : Store :=
  final (newQuestion alternating_challenges (final (init default_options initial_store))).

(** The stored timer id accounts for the browser's tick sources: every
    armed tick source is the one whose id the state holds, and the ids
    not handed out yet name no timer. *)
Definition timers_tracked (s : Store) : Prop :=
  (∀ id, timers s !! id = Some TickInterval → practiceTimerId (state s) = Z.pos id) ∧
  (∀ id, (next_timer s ≤ id)%positive → timers s !! id = None).

(** A session is configured in time mode only when no tick source is
    armed, as at the start or after [finishPracticeSession]. *)
Definition configures_when_idle (e : Event) (s : Store) : Prop :=
  match e with
  | DispatchInit _ => practiceMode (state s) = TIME → no_tick_source s
  | _ => True
  end.

Fixpoint configured_when_idle
    (generate : Difficulty → list Operator → nat → ChallengeModel)
    (evaluate : string → Evaluation) (es : list Event) (s : Store) : Prop :=
  match es with
  | [] => True
  | e :: es' =>
      configures_when_idle e s ∧
      configured_when_idle generate evaluate es' (final (step generate evaluate e s))
  end.

(** ** Getters *)

Module Getters.

Definition questionLatex (st : PracticeState) : option string := latex (question st).
Definition answer (st : PracticeState) : string := answer st.
Definition streak (st : PracticeState) : Z := streak st.
Definition operators (st : PracticeState) : list Operator := operators st.
Definition difficulty (st : PracticeState) : Difficulty := difficulty st.
Definition practiceMode (st : PracticeState) : PracticeMode := practiceMode st.
Definition practiceQuestionCount (st : PracticeState) : Z := practiceQuestionCount st.
Definition practiceTime (st : PracticeState) : Z := practiceTime st.
Definition practiceTimeLeft (st : PracticeState) : Z := practiceTimeLeft st.
Definition practiceCorrectQuestionCount (st : PracticeState) : Z :=
  practiceCorrectQuestionCount st.

End Getters.

(** ** Vocabulary of the further properties *)

(** The streak is a count of answers among the correct ones. *)
Definition counters_ordered (st : PracticeState) : Prop :=
  0 ≤ streak st ∧ streak st ≤ practiceCorrectQuestionCount st.

(** How often the Correct transition was taken during a run with this
    dispatch log. *)
Definition correct_transitions (log : list PracticeActions) : nat :=
  length (filter (λ a, a = ON_CORRECT) log).

(** The browser and the store agree: an id not handed out yet names no
    timer, and the stored timer id is 0 or names an armed tick source. *)
Definition timers_well_formed (s : Store) : Prop :=
  (∀ id, (next_timer s ≤ id)%positive → timers s !! id = None) ∧
  (practiceTimerId (state s) = 0 ∨
   ∃ p, practiceTimerId (state s) = Z.pos p ∧ timers s !! p = Some TickInterval).

(** While the feedback is shown, a timeout that hides it is pending. *)
Definition feedback_will_clear (s : Store) : Prop :=
  showingFeedback (state s) = true → ∃ id, timers s !! id = Some ClearFeedbackTimeout.

(** The three setters of the session's configuration. *)
Definition configuration_setter (e : Event) : Prop :=
  match e with
  | DispatchSetPracticeMode _ | DispatchSetPracticeQuestionCount _
  | DispatchSetPracticeTime _ => True
  | _ => False
  end.

(** [n] ticks dispatched one after the other. *)
Definition ticks (n : nat) : list Event := replicate n DispatchPracticeTimeTick.

(** Answers checked one after the other, each with its verdict, as the
    transitions they come down to. *)
Definition answer_transitions (verdicts : list bool) : list Event :=
  (λ correct : bool, if correct then DispatchOnCorrect else DispatchOnIncorrect)
    <$> verdicts.

(** What one event can do to the timers, the stored timer id and the
    feedback flag: nothing; schedule the timeout that hides the feedback
    (an answer was checked); cancel the stored timer (the session was
    finished); arm a tick source ([init] in time mode); or spend a feedback
    timeout (the browser fired it). *)
Inductive timer_effect (s s' : Store) : Prop :=
| effect_none :
    timers s' = timers s → next_timer s' = next_timer s →
    practiceTimerId (state s') = practiceTimerId (state s) →
    showingFeedback (state s') = showingFeedback (state s) →
    timer_effect s s'
| effect_feedback :
    timers s' = <[next_timer s := ClearFeedbackTimeout]> (timers s) →
    next_timer s' = Pos.succ (next_timer s) →
    practiceTimerId (state s') = practiceTimerId (state s) →
    showingFeedback (state s') = true →
    timer_effect s s'
| effect_finished :
    timers s' = cancel (practiceTimerId (state s)) (timers s) →
    next_timer s' = next_timer s →
    practiceTimerId (state s') = 0 →
    showingFeedback (state s') = showingFeedback (state s) →
    timer_effect s s'
| effect_armed :
    timers s' = <[next_timer s := TickInterval]> (timers s) →
    next_timer s' = Pos.succ (next_timer s) →
    practiceTimerId (state s') = Z.pos (next_timer s) →
    showingFeedback (state s') = showingFeedback (state s) →
    timer_effect s s'
| effect_spent (id : positive) :
    timers s !! id = Some ClearFeedbackTimeout →
    timers s' = delete id (timers s) → next_timer s' = next_timer s →
    practiceTimerId (state s') = practiceTimerId (state s) →
    showingFeedback (state s') = false →
    timer_effect s s'.

(** ** Basic facts about the actions *)

Ltac unfold_actions :=
  unfold init, finishPracticeSession, practiceTimeTick, newQuestion,
    setAnswer, onCorrect, onIncorrect, checkAnswer, setPracticeMode,
    setPracticeQuestionCount, setPracticeTime, newQuestion_helper,
    dispatching, commit, getState, setInterval, setTimeout, schedule,
    clearInterval, skip, throw, mbind, M_bind, mret, M_ret in *.

Ltac unfold_checkAnswer :=
  unfold checkAnswer, dispatching, getState, mbind, M_bind.

Section Properties.

Variable generateExpressionChallenge : Difficulty → list Operator → nat → ChallengeModel.
Variable evaluate : string → Evaluation.

#[local] Abbreviation onCorrect := (onCorrect generateExpressionChallenge).
#[local] Abbreviation checkAnswer := (checkAnswer generateExpressionChallenge evaluate).
#[local] Abbreviation step := (step generateExpressionChallenge evaluate).
#[local] Abbreviation run := (run generateExpressionChallenge evaluate).
#[local] Abbreviation run_log := (run_log generateExpressionChallenge evaluate).
#[local] Abbreviation newQuestion := (newQuestion generateExpressionChallenge).
#[local] Abbreviation all_correct := (all_correct generateExpressionChallenge evaluate).
#[local] Abbreviation countdown_respected :=
  (countdown_respected generateExpressionChallenge evaluate).

Lemma cancel_cancel id (ts : gmap positive Callback) :
  cancel id (cancel id ts) = cancel id ts.
Proof.
  destruct id as [|p|p]; simpl; try reflexivity.
  apply map_eq; intros i. destruct (decide (p = i)) as [->|Hne].
  - by rewrite !lookup_delete_eq.
  - by rewrite !lookup_delete_ne.
Qed.

(** *** What each transition does to the counters *)

Lemma onCorrect_state (s : Store) :
  state (final (onCorrect s)) =
  Mutations.setShowingFeedback true
    (Mutations.setQuestion
       (generateExpressionChallenge (difficulty (state s)) (operators (state s)) (draws s))
       (Mutations.setAnswer ""
          (Mutations.setStreak (streak (state s) + 1)
             (Mutations.setPracticeCorrectQuestionCount
                (practiceCorrectQuestionCount (state s) + 1) (state s))))).
Proof. reflexivity. Qed.

Lemma onIncorrect_state (s : Store) :
  state (final (onIncorrect s)) =
  Mutations.setShowingFeedback true
    (Mutations.setAnswer "" (Mutations.setStreak 0 (state s))).
Proof. reflexivity. Qed.

Lemma checkAnswer_correct (s : Store) :
  evaluate (equality_text (state s)) = Returns true →
  final (checkAnswer s) = final (onCorrect s) ∧
  dispatched (checkAnswer s) = CHECK_ANSWER :: dispatched (onCorrect s).
Proof.
  intros He. unfold_checkAnswer.
  rewrite He. split; reflexivity.
Qed.

Lemma checkAnswer_incorrect (s : Store) :
  evaluate (equality_text (state s)) = Returns false →
  final (checkAnswer s) = final (onIncorrect s) ∧
  dispatched (checkAnswer s) = CHECK_ANSWER :: dispatched (onIncorrect s).
Proof.
  intros He. unfold_checkAnswer.
  rewrite He. split; reflexivity.
Qed.

Lemma checkAnswer_throws (s : Store) :
  evaluate (equality_text (state s)) = Throws →
  checkAnswer s = mkResult None s [CHECK_ANSWER].
Proof.
  intros He. unfold_checkAnswer.
  rewrite He. reflexivity.
Qed.

Lemma correct_submission_counters (text : string) (s : Store) :
  evaluate (text +:+ " == " +:+ interpolate (infix (question (state s)))) = Returns true →
  let s' := run (submission text) s in
  streak (state s') = streak (state s) + 1 ∧
  practiceCorrectQuestionCount (state s')
    = practiceCorrectQuestionCount (state s) + 1.
Proof.
  intros He.
  change (run (submission text) s)
    with (final (checkAnswer (final (setAnswer text s)))).
  destruct (checkAnswer_correct (final (setAnswer text s)) He) as [-> _].
  cbv zeta. rewrite onCorrect_state. split; reflexivity.
Qed.

Lemma correct_submissions_counters (texts : list string) :
  ∀ s, all_correct texts s →
  let s' := run (submissions texts) s in
  streak (state s') = streak (state s) + Z.of_nat (length texts) ∧
  practiceCorrectQuestionCount (state s')
    = practiceCorrectQuestionCount (state s) + Z.of_nat (length texts).
Proof.
  induction texts as [|text texts IH]; intros s Hall.
  - simpl. split; lia.
  - destruct Hall as [He Hall].
    destruct (correct_submission_counters text s He) as [Hs Hc].
    specialize (IH _ Hall). destruct IH as [IHs IHc].
    change (run (submissions (text :: texts)) s)
      with (run (submissions texts) (run (submission text) s)).
    cbv zeta in *. rewrite IHs, IHc, Hs, Hc.
    rewrite length_cons, Nat2Z.inj_succ. split; lia.
Qed.

Lemma correct_answers_counters (n : nat) :
  ∀ s, let s' := run (correct_answers n) s in
  streak (state s') = streak (state s) + Z.of_nat n ∧
  practiceCorrectQuestionCount (state s')
    = practiceCorrectQuestionCount (state s) + Z.of_nat n.
Proof.
  induction n as [|n IH]; intros s.
  - simpl. split; lia.
  - change (run (correct_answers (S n)) s)
      with (run (correct_answers n) (final (onCorrect s))).
    cbv zeta in *. destruct (IH (final (onCorrect s))) as [-> ->].
    rewrite onCorrect_state. simpl. split; lia.
Qed.

(** C2: from a freshly reset session, [N] correct submissions in a row
    leave streak and count of correct answers at [N] (and so do [N]
    Correct transitions after [finishPracticeSession], for every [N]); an
    incorrect submission, wherever it comes, puts the streak at 0, keeps
    the count, clears the answer and keeps the challenge; a correct one
    clears the answer and asks for a new challenge. *)
Theorem consecutive_correct_submissions (texts : list string) (s : Store)
    (Hstreak : streak (state s) = 0)
    (Hcount : practiceCorrectQuestionCount (state s) = 0)
    (Hall : all_correct texts s) :
  (let s' := run (submissions texts) s in
   streak (state s') = Z.of_nat (length texts) ∧
   practiceCorrectQuestionCount (state s') = Z.of_nat (length texts)) ∧
  (∀ (n : nat) (s0 : Store),
     let s' := run (correct_answers n) (final (finishPracticeSession s0)) in
     streak (state s') = Z.of_nat n ∧
     practiceCorrectQuestionCount (state s') = Z.of_nat n) ∧
  (∀ s1 : Store,
     evaluate (equality_text (state s1)) = Returns false →
     let s' := state (final (checkAnswer s1)) in
     streak s' = 0 ∧
     practiceCorrectQuestionCount s' = practiceCorrectQuestionCount (state s1) ∧
     answer s' = "" ∧
     question s' = question (state s1) ∧
     NEW_QUESTION ∉ dispatched (checkAnswer s1)) ∧
  (∀ s1 : Store,
     evaluate (equality_text (state s1)) = Returns true →
     let s' := state (final (checkAnswer s1)) in
     streak s' = streak (state s1) + 1 ∧
     practiceCorrectQuestionCount s' = practiceCorrectQuestionCount (state s1) + 1 ∧
     answer s' = "" ∧
     question s' = generateExpressionChallenge
                     (difficulty (state s1)) (operators (state s1)) (draws s1) ∧
     NEW_QUESTION ∈ dispatched (checkAnswer s1)).
Proof.
  split; [|split; [|split]].
  - destruct (correct_submissions_counters texts s Hall) as [Hs Hc].
    cbv zeta in *. rewrite Hs, Hc, Hstreak, Hcount. split; lia.
  - intros n s0.
    destruct (correct_answers_counters n (final (finishPracticeSession s0))) as [Hs Hc].
    cbv zeta in *. rewrite Hs, Hc. simpl. split; lia.
  - intros s1 He. destruct (checkAnswer_incorrect s1 He) as [Hf Hd].
    cbv zeta. rewrite Hf, Hd, onIncorrect_state. simpl.
    repeat split. intros Hin. apply elem_of_cons in Hin as [Hin|Hin]; [discriminate|].
    apply list_elem_of_singleton in Hin. discriminate.
  - intros s1 He. destruct (checkAnswer_correct s1 He) as [Hf Hd].
    cbv zeta. rewrite Hf, Hd, onCorrect_state. simpl.
    repeat split.
    + destruct (generateExpressionChallenge _ _ _). reflexivity.
    + set_solver.
Qed.

(** *** The countdown *)

Lemma tick_reaching_zero (s : Store) :
  practiceTimeLeft (state s) - 1 = 0 →
  practiceTimeTick s =
  mkResult (Some tt) (final (finishPracticeSession s))
    [PRACTICE_TIME_TICK; FINISH_PRACTICE_SESSION].
Proof.
  intros Hz. unfold practiceTimeTick, dispatching, getState, mbind, M_bind.
  destruct (decide (practiceTimeLeft (state s) - 1 = 0)); [reflexivity | contradiction].
Qed.

Lemma tick_above_or_below_zero (s : Store) :
  practiceTimeLeft (state s) - 1 ≠ 0 →
  practiceTimeTick s =
  mkResult (Some tt)
    {| state := Mutations.setPracticeTimeLeft (practiceTimeLeft (state s) - 1) (state s);
       timers := timers s; next_timer := next_timer s; draws := draws s |}
    [PRACTICE_TIME_TICK].
Proof.
  intros Hz. unfold practiceTimeTick, dispatching, getState, mbind, M_bind.
  destruct (decide (practiceTimeLeft (state s) - 1 = 0)); [contradiction | reflexivity].
Qed.

Lemma fire_interval (id : positive) (s : Store) :
  timers s !! id = Some TickInterval → fire id s = practiceTimeTick s.
Proof. intros H. unfold fire. rewrite H. reflexivity. Qed.

Lemma firings_before_zero (id : positive) (n : nat) :
  ∀ s, timers s !! id = Some TickInterval →
  (∀ k : nat, (1 ≤ k ≤ n)%nat → practiceTimeLeft (state s) - Z.of_nat k ≠ 0) →
  let s' := run (firings n id) s in
  practiceTimeLeft (state s') = practiceTimeLeft (state s) - Z.of_nat n ∧
  practiceTime (state s') = practiceTime (state s) ∧
  practiceTimerId (state s') = practiceTimerId (state s) ∧
  timers s' = timers s ∧
  run_log (firings n id) s = replicate n PRACTICE_TIME_TICK.
Proof.
  induction n as [|n IH]; intros s Hid Hnz.
  - simpl. repeat split. lia.
  - assert (H1 : practiceTimeLeft (state s) - 1 ≠ 0).
    { apply (Hnz 1%nat). lia. }
    change (run (firings (S n) id) s)
      with (run (firings n id) (final (fire id s))).
    change (run_log (firings (S n) id) s)
      with (dispatched (fire id s) ++ run_log (firings n id) (final (fire id s))).
    rewrite (fire_interval id s Hid), (tick_above_or_below_zero s H1).
    cbn [final dispatched].
    set (s1 := {| state := Mutations.setPracticeTimeLeft _ _; timers := timers s;
                  next_timer := next_timer s; draws := draws s |}).
    assert (Hid1 : timers s1 !! id = Some TickInterval) by exact Hid.
    assert (Hnz1 : ∀ k : nat, (1 ≤ k ≤ n)%nat →
                   practiceTimeLeft (state s1) - Z.of_nat k ≠ 0).
    { intros k Hk. specialize (Hnz (S k) ltac:(lia)).
      subst s1. cbn [state Mutations.setPracticeTimeLeft practiceTimeLeft]. lia. }
    destruct (IH s1 Hid1 Hnz1) as (Hl & Ht & Hti & Htm & Hlog).
    cbv zeta. rewrite Hl, Ht, Hti, Htm, Hlog.
    subst s1.
    cbn [state timers Mutations.setPracticeTimeLeft practiceTimeLeft practiceTime
         practiceTimerId].
    repeat split. lia.
Qed.

Lemma ticks_do_not_terminate (n : nat) :
  ¬ terminated (replicate n PRACTICE_TIME_TICK).
Proof.
  unfold terminated. intros Hin. apply elem_of_replicate in Hin as [Heq _].
  discriminate.
Qed.

Lemma tick_and_finish_terminated :
  terminated [PRACTICE_TIME_TICK; FINISH_PRACTICE_SESSION].
Proof. unfold terminated. rewrite !elem_of_cons. right; left; reflexivity. Qed.

Lemma init_in_time_mode (options : PracticeOptions) (s : Store) :
  practiceMode (state s) = TIME →
  init options s =
  mkResult (Some tt)
    {| state := Mutations.setPracticeTimerId (Z.pos (next_timer s))
                  (Mutations.setPracticeOptions options (state s));
       timers := <[next_timer s := TickInterval]> (timers s);
       next_timer := Pos.succ (next_timer s); draws := draws s |}
    [INIT].
Proof.
  intros Hm. unfold init, dispatching, commit, getState, mbind, M_bind. simpl.
  rewrite Hm. reflexivity.
Qed.

Lemma init_in_other_mode (options : PracticeOptions) (s : Store) :
  practiceMode (state s) ≠ TIME →
  init options s =
  mkResult (Some tt)
    {| state := Mutations.setPracticeOptions options (state s);
       timers := timers s; next_timer := next_timer s; draws := draws s |}
    [INIT].
Proof.
  intros Hm. unfold init, dispatching, commit, getState, mbind, M_bind. simpl.
  destruct (decide (practiceMode (state s) = TIME)); [contradiction | reflexivity].
Qed.

(** C3, as the store has it: a tick takes 1 off the time left before it
    looks for zero, and the session ends on the tick that brings the time
    left to exactly 0.  After [init] in time mode with practice time [T],
    no tick ends the session while fewer than [T] have come, the [T]-th
    does; with [T ≤ 0] (so with [T = 0]) no tick ever does: the first one
    stores [T - 1] and the timer stays armed. *)
Theorem countdown_ends_on_exact_zero (options : PracticeOptions) (s : Store)
    (Hmode : practiceMode (state s) = TIME) :
  let T := practiceTime (state s) in
  let id := next_timer s in
  let s0 := final (init options s) in
  (practiceTimeLeft (state s0) = T ∧ timers s0 !! id = Some TickInterval ∧
   practiceTimerId (state s0) = Z.pos id) ∧
  (∀ n : nat, Z.of_nat n < T ∨ T ≤ 0 →
     let sn := run (firings n id) s0 in
     practiceTimeLeft (state sn) = T - Z.of_nat n ∧
     timers sn !! id = Some TickInterval ∧
     ¬ terminated (run_log (firings n id) s0)) ∧
  (∀ n : nat, Z.of_nat (S n) = T →
     let last := fire id (run (firings n id) s0) in
     terminated (dispatched last) ∧
     ¬ terminated (run_log (firings n id) s0) ∧
     timers (final last) !! id = None ∧
     practiceTimeLeft (state (final last)) = 0) ∧
  (∀ s1 : Store,
     let r := practiceTimeTick s1 in
     (practiceTimeLeft (state s1) - 1 = 0 →
        terminated (dispatched r) ∧ final r = final (finishPracticeSession s1)) ∧
     (practiceTimeLeft (state s1) - 1 ≠ 0 →
        ¬ terminated (dispatched r) ∧ timers (final r) = timers s1 ∧
        practiceTimeLeft (state (final r)) = practiceTimeLeft (state s1) - 1)).
Proof.
  intros T id s0.
  assert (Hs0 : s0 = {| state := Mutations.setPracticeTimerId (Z.pos id)
                          (Mutations.setPracticeOptions options (state s));
                        timers := <[id := TickInterval]> (timers s);
                        next_timer := Pos.succ id; draws := draws s |}).
  { subst s0. rewrite (init_in_time_mode options s Hmode). reflexivity. }
  assert (Hid : timers s0 !! id = Some TickInterval).
  { rewrite Hs0. cbn [timers]. apply lookup_insert_eq. }
  assert (Hleft : practiceTimeLeft (state s0) = T) by (rewrite Hs0; reflexivity).
  assert (Hbefore : ∀ n : nat, Z.of_nat n < T ∨ T ≤ 0 →
            let sn := run (firings n id) s0 in
            practiceTimeLeft (state sn) = T - Z.of_nat n ∧
            timers sn = timers s0 ∧
            practiceTimerId (state sn) = Z.pos id ∧
            ¬ terminated (run_log (firings n id) s0)).
  { intros n Hn.
    destruct (firings_before_zero id n s0 Hid) as (Hl & _ & Hti & Htm & Hlog).
    { intros k Hk. rewrite Hleft. lia. }
    cbv zeta in *. rewrite Hl, Hti, Htm, Hlog, Hleft.
    repeat split; [rewrite Hs0; reflexivity | apply ticks_do_not_terminate]. }
  split; [|split; [|split]].
  - split; [exact Hleft|]. split; [exact Hid|]. rewrite Hs0. reflexivity.
  - intros n Hn. destruct (Hbefore n Hn) as (Hl & Htm & _ & Hlog). cbv zeta in *.
    split; [exact Hl|]. split; [|exact Hlog]. rewrite Htm. exact Hid.
  - intros n HT. destruct (Hbefore n ltac:(lia)) as (Hl & Htm & Htid & Hlog).
    cbv zeta in *.
    set (sn := run (firings n id) s0) in *.
    assert (Hidn : timers sn !! id = Some TickInterval) by (rewrite Htm; exact Hid).
    assert (Hz : practiceTimeLeft (state sn) - 1 = 0) by lia.
    rewrite (fire_interval id sn Hidn), (tick_reaching_zero sn Hz).
    cbn [dispatched final].
    split; [apply tick_and_finish_terminated|]. split; [exact Hlog|].
    split; [|reflexivity].
    unfold finishPracticeSession, dispatching, commit, clearInterval, getState, mbind, M_bind.
    cbn [final timers state]. rewrite Htid. cbn [cancel]. apply lookup_delete_eq.
  - intros s1. cbv zeta. split; intros Hz.
    + rewrite (tick_reaching_zero s1 Hz). cbn [dispatched final].
      split; [apply tick_and_finish_terminated | reflexivity].
    + rewrite (tick_above_or_below_zero s1 Hz). cbn [dispatched final timers state].
      split; [|split; reflexivity].
      unfold terminated. intros Hin. apply list_elem_of_singleton in Hin. discriminate.
Qed.

(** *** The bound on the countdown *)

Lemma tick_keeps_time_invariant (s : Store) :
  time_invariant (state s) → time_invariant (state (final (practiceTimeTick s))).
Proof.
  unfold time_invariant. intros [H0 Hle].
  destruct (decide (practiceTimeLeft (state s) - 1 = 0)) as [Hz|Hz].
  - rewrite (tick_reaching_zero s Hz). simpl. lia.
  - rewrite (tick_above_or_below_zero s Hz). simpl. lia.
Qed.

Lemma checkAnswer_cases (s : Store) :
  final (checkAnswer s) = final (onCorrect s) ∨
  final (checkAnswer s) = final (onIncorrect s) ∨
  final (checkAnswer s) = s.
Proof.
  destruct (evaluate (equality_text (state s))) as [[|]|] eqn:He.
  - left. apply (checkAnswer_correct s He).
  - right; left. apply (checkAnswer_incorrect s He).
  - right; right. rewrite (checkAnswer_throws s He). reflexivity.
Qed.

Lemma step_keeps_time_invariant (e : Event) (s : Store) :
  time_invariant (state s) →
  respects_countdown e (state s) →
  time_invariant (state (final (step e s))).
Proof.
  intros Hinv Hr. pose proof Hinv as [H0 Hle].
  destruct e; simpl in Hr; unfold step.
  - destruct (decide (practiceMode (state s) = TIME)) as [Hm|Hm].
    + rewrite (init_in_time_mode options s Hm). unfold time_invariant. simpl. lia.
    + rewrite (init_in_other_mode options s Hm). unfold time_invariant. simpl. lia.
  - unfold time_invariant. simpl. lia.
  - unfold time_invariant. simpl. lia.
  - destruct (checkAnswer_cases s) as [-> | [-> | ->]];
      unfold time_invariant; simpl; lia.
  - unfold time_invariant. simpl. lia.
  - unfold time_invariant. simpl. lia.
  - unfold time_invariant. simpl. lia.
  - unfold time_invariant. simpl. lia.
  - unfold time_invariant. simpl. lia.
  - unfold time_invariant. simpl. lia.
  - unfold time_invariant. simpl. lia.
  - apply tick_keeps_time_invariant, Hinv.
  - unfold time_invariant. simpl. lia.
  - unfold time_invariant. simpl. lia.
  - unfold fire. destruct (timers s !! id) as [[|]|].
    + apply tick_keeps_time_invariant, Hinv.
    + unfold time_invariant. simpl. lia.
    + unfold time_invariant. simpl. lia.
Qed.

(** C6, as the store has it: the time left never exceeds the practice
    time in any state reached from one where that holds and the practice
    time is not negative (the initial store is such a state), as long as
    every [setPracticeTime] of the run gives a time that is not negative
    and not below the time then left.  [setPracticeTime] itself only
    replaces the practice time and leaves the time left as it is. *)
Theorem time_left_bounded_while_countdown_respected (es : list Event) (s : Store)
    (Hinv : time_invariant (state s))
    (Hes : countdown_respected es s) :
  practiceTimeLeft (state (run es s)) ≤ practiceTime (state (run es s)) ∧
  time_invariant (state (run es s)) ∧
  time_invariant (state initial_store) ∧
  (∀ (t : Z) (s1 : Store),
     let s' := state (final (setPracticeTime t s1)) in
     practiceTime s' = t ∧ practiceTimeLeft s' = practiceTimeLeft (state s1)).
Proof.
  assert (Hrun : time_invariant (state (run es s))).
  { revert s Hinv Hes. induction es as [|e es IH]; intros s Hinv Hes.
    - exact Hinv.
    - destruct Hes as [Hr Hes]. simpl. apply IH; [|exact Hes].
      apply step_keeps_time_invariant; assumption. }
  split; [apply Hrun|]. split; [exact Hrun|]. split.
  - unfold time_invariant. simpl. lia.
  - intros t s1. simpl. split; reflexivity.
Qed.

(** *** Termination in "by question count" mode *)




Lemma checkAnswer_log_cases (s : Store) :
  (final (checkAnswer s) = final (onCorrect s) ∧
   dispatched (checkAnswer s) = [CHECK_ANSWER; ON_CORRECT; NEW_QUESTION]) ∨
  (final (checkAnswer s) = final (onIncorrect s) ∧
   dispatched (checkAnswer s) = [CHECK_ANSWER; ON_INCORRECT]) ∨
  (final (checkAnswer s) = s ∧ dispatched (checkAnswer s) = [CHECK_ANSWER]).
Proof.
  destruct (evaluate (equality_text (state s))) as [[|]|] eqn:He.
  - left. apply (checkAnswer_correct s He).
  - right; left. apply (checkAnswer_incorrect s He).
  - right; right. rewrite (checkAnswer_throws s He). split; reflexivity.
Qed.





(** *** Finishing and configuring a session *)

(** C8: whatever the store holds, [finishPracticeSession] leaves the
    streak, the count of correct answers, the timer id and the time left
    at 0, and the configuration (difficulty, operators, challenge types,
    mode, question count, practice time) as it was. *)
Theorem finish_resets_session_keeps_configuration (s : Store) :
  let s' := state (final (finishPracticeSession s)) in
  (streak s' = 0 ∧ practiceCorrectQuestionCount s' = 0 ∧
   practiceTimerId s' = 0 ∧ practiceTimeLeft s' = 0) ∧
  (difficulty s' = difficulty (state s) ∧
   operators s' = operators (state s) ∧
   challengeTypes s' = challengeTypes (state s) ∧
   practiceMode s' = practiceMode (state s) ∧
   practiceQuestionCount s' = practiceQuestionCount (state s) ∧
   practiceTime s' = practiceTime (state s)).
Proof. unfold_actions. simpl. repeat split. Qed.

(** C7: finishing twice in a row leaves the store exactly as finishing
    once does, and neither call throws; cancelling a timer a second time,
    or the absent timer 0, changes nothing. *)
Theorem finish_idempotent (s : Store) :
  final (finishPracticeSession (final (finishPracticeSession s)))
    = final (finishPracticeSession s) ∧
  outcome (finishPracticeSession s) = Some tt ∧
  outcome (finishPracticeSession (final (finishPracticeSession s))) = Some tt ∧
  timers (final (finishPracticeSession (final (finishPracticeSession s))))
    = cancel (practiceTimerId (state s)) (timers s) ∧
  (∀ id ts, cancel id (cancel id ts) = cancel id ts) ∧
  (∀ ts, cancel 0 ts = ts).
Proof.
  unfold_actions. simpl. repeat split. intros id ts. apply cancel_cancel.
Qed.

(** C1, as the store has it: [init] restarts the countdown from the
    current practice time and stores the three options; it leaves the
    streak and the count of correct answers as they were.  They are 0
    after [init] when it runs on the initial store or right after
    [finishPracticeSession]. *)
Theorem init_restarts_countdown_keeps_counters (options : PracticeOptions) (s : Store) :
  let s' := state (final (init options s)) in
  let fresh := state (final (init options (final (finishPracticeSession s)))) in
  let first := state (final (init options initial_store)) in
  (practiceTimeLeft s' = practiceTime s' ∧
   practiceTime s' = practiceTime (state s) ∧
   difficulty s' = opt_difficulty options ∧
   operators s' = opt_operators options ∧
   challengeTypes s' = opt_challengeTypes options) ∧
  (streak s' = streak (state s) ∧
   practiceCorrectQuestionCount s' = practiceCorrectQuestionCount (state s)) ∧
  (practiceTimeLeft fresh = practiceTime fresh ∧ streak fresh = 0 ∧
   practiceCorrectQuestionCount fresh = 0) ∧
  (practiceTimeLeft first = practiceTime first ∧ streak first = 0 ∧
   practiceCorrectQuestionCount first = 0).
Proof.
  unfold_actions. simpl.
  destruct (decide (practiceMode (state s) = TIME)); simpl; repeat split.
Qed.

(** *** Checking an answer *)

(** C5, as the store has it: [checkAnswer] takes the Correct transition
    when [evaluate] returns a truthy value and the Incorrect transition
    when it returns a falsy one; when [evaluate] throws, the exception
    leaves [checkAnswer], no transition is taken and the store is as it
    was. *)
Theorem checkAnswer_follows_evaluate (s : Store) :
  match evaluate (equality_text (state s)) with
  | Returns true =>
      outcome (checkAnswer s) = Some tt ∧
      final (checkAnswer s) = final (onCorrect s) ∧
      dispatched (checkAnswer s) = CHECK_ANSWER :: dispatched (onCorrect s)
  | Returns false =>
      outcome (checkAnswer s) = Some tt ∧
      final (checkAnswer s) = final (onIncorrect s) ∧
      dispatched (checkAnswer s) = CHECK_ANSWER :: dispatched (onIncorrect s)
  | Throws =>
      outcome (checkAnswer s) = None ∧
      final (checkAnswer s) = s ∧
      dispatched (checkAnswer s) = [CHECK_ANSWER]
  end.
Proof.
  unfold_actions. simpl.
  destruct (evaluate (equality_text (state s))) as [[|]|]; simpl; repeat split.
Qed.

(** *** The operators *)

(** C10: when [op] is already among the operators, enabling it appends
    a second occurrence at the end, so that the operators hold a
    duplicate; disabling it afterwards removes every occurrence and keeps
    the other operators in their order. *)
Theorem operators_are_not_a_set (op : Operator) (st : PracticeState)
    (Hin : op ∈ operators st) :
  let enabled := Mutations.setOperatorEnabled op st in
  let disabled := Mutations.setOperatorDisabled op enabled in
  operators enabled = operators st ++ [op] ∧
  length (filter (λ o, o = op) (operators enabled))
    = S (length (filter (λ o, o = op) (operators st))) ∧
  (2 ≤ length (filter (λ o, o = op) (operators enabled)))%nat ∧
  ¬ NoDup (operators enabled) ∧
  operators disabled = filter (λ o, o ≠ op) (operators st) ∧
  op ∉ operators disabled.
Proof.
  simpl.
  assert (Hcount : length (filter (λ o, o = op) (operators st ++ [op]))
                   = S (length (filter (λ o, o = op) (operators st)))).
  { rewrite filter_app, length_app.
    rewrite filter_cons_True by reflexivity. simpl. lia. }
  assert (Hone : (1 ≤ length (filter (λ o, o = op) (operators st)))%nat).
  { destruct (filter (λ o, o = op) (operators st)) as [|x l] eqn:Hf.
    - exfalso. eapply (not_elem_of_nil op). rewrite <- Hf.
      apply list_elem_of_filter. split; [reflexivity | exact Hin].
    - simpl. lia. }
  split; [reflexivity|]. split; [exact Hcount|]. split; [lia|].
  split.
  { intros Hnd. apply NoDup_app in Hnd as (_ & Hdisj & _).
    apply (Hdisj op Hin). apply list_elem_of_singleton. reflexivity. }
  split.
  { rewrite filter_app. rewrite filter_cons_False by (intros H; apply H; reflexivity).
    rewrite filter_nil. apply app_nil_r. }
  intros Hx. apply list_elem_of_filter in Hx as [Hne _]. apply Hne. reflexivity.
Qed.

(** *** Tick sources *)

Lemma feedback_timeout_keeps_tracking (s s' : Store) :
  timers_tracked s →
  timers s' = <[next_timer s := ClearFeedbackTimeout]> (timers s) →
  next_timer s' = Pos.succ (next_timer s) →
  practiceTimerId (state s') = practiceTimerId (state s) →
  timers_tracked s'.
Proof.
  intros [Htick Hfresh] Ht Hn Hid. split; intros id; rewrite Ht, ?Hn, ?Hid.
  - destruct (decide (next_timer s = id)) as [->|Hne].
    + rewrite lookup_insert_eq. discriminate.
    + rewrite lookup_insert_ne by exact Hne. apply Htick.
  - intros Hle. rewrite lookup_insert_ne by lia. apply Hfresh. lia.
Qed.

Lemma same_timers_keep_tracking (s s' : Store) :
  timers_tracked s →
  timers s' = timers s →
  next_timer s' = next_timer s →
  practiceTimerId (state s') = practiceTimerId (state s) →
  timers_tracked s'.
Proof.
  intros [Htick Hfresh] Ht Hn Hid. split; intros id; rewrite Ht, ?Hn, ?Hid.
  - apply Htick.
  - apply Hfresh.
Qed.

Lemma finish_keeps_tracking (s : Store) :
  timers_tracked s → timers_tracked (final (finishPracticeSession s)).
Proof.
  intros [Htick Hfresh]. split; intros id; simpl.
  - intros Hid. exfalso.
    destruct (practiceTimerId (state s)) as [|p|p] eqn:Hp; simpl in Hid.
    + specialize (Htick id Hid). discriminate.
    + destruct (decide (p = id)) as [->|Hne].
      * rewrite lookup_delete_eq in Hid. discriminate.
      * rewrite lookup_delete_ne in Hid by exact Hne.
        specialize (Htick id Hid). congruence.
    + specialize (Htick id Hid). discriminate.
  - intros Hle. destruct (practiceTimerId (state s)) as [|p|p]; simpl.
    + apply Hfresh, Hle.
    + destruct (decide (p = id)) as [->|Hne].
      * apply lookup_delete_eq.
      * rewrite lookup_delete_ne by exact Hne. apply Hfresh, Hle.
    + apply Hfresh, Hle.
Qed.

Lemma tick_keeps_tracking (s : Store) :
  timers_tracked s → timers_tracked (final (practiceTimeTick s)).
Proof.
  intros Hk. destruct (decide (practiceTimeLeft (state s) - 1 = 0)) as [Hz|Hz].
  - rewrite (tick_reaching_zero s Hz). apply finish_keeps_tracking, Hk.
  - rewrite (tick_above_or_below_zero s Hz).
    apply (same_timers_keep_tracking s); [exact Hk | reflexivity..].
Qed.

Lemma step_keeps_tracking (e : Event) (s : Store) :
  timers_tracked s →
  configures_when_idle e s →
  timers_tracked (final (step e s)).
Proof.
  intros Hk He. destruct e; simpl in He; unfold step.
  - destruct (decide (practiceMode (state s) = TIME)) as [Hm|Hm].
    + rewrite (init_in_time_mode options s Hm). specialize (He Hm).
      destruct Hk as [Htick Hfresh]. split; intros id; simpl.
      * destruct (decide (next_timer s = id)) as [->|Hne]; [reflexivity|].
        rewrite lookup_insert_ne by exact Hne. intros Hid.
        exfalso. exact (He id Hid).
      * intros Hle. rewrite lookup_insert_ne by lia. apply Hfresh. lia.
    + rewrite (init_in_other_mode options s Hm).
      apply (same_timers_keep_tracking s); [exact Hk | reflexivity..].
  - apply (same_timers_keep_tracking s); [exact Hk | reflexivity..].
  - apply (same_timers_keep_tracking s); [exact Hk | reflexivity..].
  - destruct (checkAnswer_cases s) as [-> | [-> | ->]].
    + apply (feedback_timeout_keeps_tracking s); [exact Hk | reflexivity..].
    + apply (feedback_timeout_keeps_tracking s); [exact Hk | reflexivity..].
    + exact Hk.
  - apply (feedback_timeout_keeps_tracking s); [exact Hk | reflexivity..].
  - apply (feedback_timeout_keeps_tracking s); [exact Hk | reflexivity..].
  - apply (same_timers_keep_tracking s); [exact Hk | reflexivity..].
  - apply (same_timers_keep_tracking s); [exact Hk | reflexivity..].
  - apply (same_timers_keep_tracking s); [exact Hk | reflexivity..].
  - exact Hk.
  - apply finish_keeps_tracking, Hk.
  - apply tick_keeps_tracking, Hk.
  - apply (same_timers_keep_tracking s); [exact Hk | reflexivity..].
  - apply (same_timers_keep_tracking s); [exact Hk | reflexivity..].
  - unfold fire. destruct (timers s !! id) as [[|]|] eqn:Hid.
    + apply tick_keeps_tracking, Hk.
    + destruct Hk as [Htick Hfresh]. split; intros k; simpl.
      * destruct (decide (id = k)) as [->|Hne].
        -- rewrite lookup_delete_eq. discriminate.
        -- rewrite lookup_delete_ne by exact Hne. apply Htick.
      * intros Hle. destruct (decide (id = k)) as [->|Hne].
        -- apply lookup_delete_eq.
        -- rewrite lookup_delete_ne by exact Hne. apply Hfresh, Hle.
    + exact Hk.
Qed.

(** What the store does guarantee about tick sources: along a run that
    configures a time-mode session only when none is armed, at most one
    tick source is armed, and it is the one the stored id names. *)
Lemma one_tick_source_when_configured_idle (es : list Event) :
  ∀ s, timers_tracked s →
  configured_when_idle generateExpressionChallenge evaluate es s →
  timers_tracked (run es s) ∧
  (∀ id1 id2, timers (run es s) !! id1 = Some TickInterval →
              timers (run es s) !! id2 = Some TickInterval → id1 = id2).
Proof.
  assert (Hone : ∀ s, timers_tracked s →
            ∀ id1 id2, timers s !! id1 = Some TickInterval →
                       timers s !! id2 = Some TickInterval → id1 = id2).
  { intros s [Htick _] id1 id2 H1 H2.
    pose proof (Htick id1 H1) as E1. pose proof (Htick id2 H2) as E2.
    congruence. }
  induction es as [|e es IH]; intros s Hk Hes.
  - split; [exact Hk | apply Hone, Hk].
  - destruct Hes as [He Hes]. simpl. apply IH; [|exact Hes].
    apply step_keeps_tracking; assumption.
Qed.

Lemma initial_store_tracked : timers_tracked initial_store.
Proof.
  split; intros id; simpl.
  - rewrite lookup_empty. discriminate.
  - intros _. apply lookup_empty.
Qed.

(** C4, at the input where the store breaks it: [init] dispatched twice
    on the initial store (time mode) arms two tick sources, 1 and 2, and
    keeps only the id 2; both decrement the time left, and
    [finishPracticeSession] cancels timer 2 alone, so that timer 1 goes on
    ticking with no id left to cancel it by. *)
Theorem init_twice_arms_two_tick_sources :
  let s2 := final (init default_options (final (init default_options initial_store))) in
  let s3 := final (finishPracticeSession s2) in
  (timers s2 !! 1%positive = Some TickInterval ∧
   timers s2 !! 2%positive = Some TickInterval ∧
   size (live_intervals s2) = 2%nat ∧
   practiceTimerId (state s2) = 2) ∧
  (practiceTimeLeft (state s2) = 10 ∧
   practiceTimeLeft (state (final (fire 2 (final (fire 1 s2))))) = 8) ∧
  (timers s3 !! 1%positive = Some TickInterval ∧
   size (live_intervals s3) = 1%nat ∧
   practiceTimerId (state s3) = 0 ∧
   timers (final (finishPracticeSession s3)) !! 1%positive = Some TickInterval).
Proof. vm_compute. repeat split. Qed.

(** ** Further properties of the store *)

(** *** The counters along a run *)

Lemma step_keeps_counters_ordered (e : Event) (s : Store) :
  counters_ordered (state s) → counters_ordered (state (final (step e s))).
Proof.
  unfold counters_ordered. intros [H0 Hle].
  assert (Hfinish : ∀ s0, 0 ≤ streak (state (final (finishPracticeSession s0))) ∧
            streak (state (final (finishPracticeSession s0)))
              ≤ practiceCorrectQuestionCount (state (final (finishPracticeSession s0)))).
  { intros s0. simpl. lia. }
  assert (Htick : 0 ≤ streak (state (final (practiceTimeTick s))) ∧
            streak (state (final (practiceTimeTick s)))
              ≤ practiceCorrectQuestionCount (state (final (practiceTimeTick s)))).
  { destruct (decide (practiceTimeLeft (state s) - 1 = 0)) as [Hz|Hz].
    - rewrite (tick_reaching_zero s Hz). apply Hfinish.
    - rewrite (tick_above_or_below_zero s Hz). simpl. lia. }
  destruct e; unfold step.
  - destruct (decide (practiceMode (state s) = TIME)) as [Hm|Hm].
    + rewrite (init_in_time_mode options s Hm). simpl. lia.
    + rewrite (init_in_other_mode options s Hm). simpl. lia.
  - simpl. lia.
  - simpl. lia.
  - destruct (checkAnswer_cases s) as [-> | [-> | ->]]; simpl; lia.
  - simpl. lia.
  - simpl. lia.
  - simpl. lia.
  - simpl. lia.
  - simpl. lia.
  - simpl. lia.
  - apply Hfinish.
  - exact Htick.
  - simpl. lia.
  - simpl. lia.
  - unfold fire. destruct (timers s !! id) as [[|]|]; [exact Htick | simpl; lia..].
Qed.

(** X1: the streak never exceeds the count of correct answers, and
    neither is negative: what holds of the counters at the start of a run
    of events holds at its end, and it holds of the initial store. *)
Theorem counters_ordered_along_runs (es : list Event) (s : Store)
    (Hs : counters_ordered (state s)) :
  counters_ordered (state (run es s)) ∧
  counters_ordered (state (run es initial_store)).
Proof.
  assert (Hrun : ∀ s0, counters_ordered (state s0) → counters_ordered (state (run es s0))).
  { induction es as [|e es IH]; intros s0 H0; [exact H0|].
    simpl. apply IH, step_keeps_counters_ordered, H0. }
  split; [apply Hrun, Hs|]. apply Hrun. unfold counters_ordered. simpl. lia.
Qed.

Ltac count_log :=
  simpl;
  repeat match goal with
  | |- context [correct_transitions ?l] =>
      let v := eval vm_compute in (correct_transitions l) in
      change (correct_transitions l) with v
  end;
  lia.

Lemma step_counts_correct_transitions (e : Event) (s : Store) :
  ¬ terminated (dispatched (step e s)) →
  practiceCorrectQuestionCount (state (final (step e s)))
    = practiceCorrectQuestionCount (state s)
      + Z.of_nat (correct_transitions (dispatched (step e s))).
Proof.
  intros Hnot.
  assert (Htick : ¬ terminated (dispatched (practiceTimeTick s)) →
            practiceCorrectQuestionCount (state (final (practiceTimeTick s)))
              = practiceCorrectQuestionCount (state s)
                + Z.of_nat (correct_transitions (dispatched (practiceTimeTick s)))).
  { destruct (decide (practiceTimeLeft (state s) - 1 = 0)) as [Hz|Hz].
    - rewrite (tick_reaching_zero s Hz). intros H. exfalso. apply H.
      apply tick_and_finish_terminated.
    - rewrite (tick_above_or_below_zero s Hz). intros _. count_log. }
  destruct e; unfold step in *.
  - destruct (decide (practiceMode (state s) = TIME)) as [Hm|Hm].
    + rewrite (init_in_time_mode options s Hm). count_log.
    + rewrite (init_in_other_mode options s Hm). count_log.
  - count_log.
  - count_log.
  - destruct (checkAnswer_log_cases s) as [[-> ->] | [[-> ->] | [-> ->]]]; count_log.
  - count_log.
  - count_log.
  - count_log.
  - count_log.
  - count_log.
  - count_log.
  - exfalso. apply Hnot. unfold terminated. simpl. apply elem_of_cons. left. reflexivity.
  - apply Htick, Hnot.
  - count_log.
  - count_log.
  - unfold fire in *. destruct (timers s !! id) as [[|]|];
      [apply Htick, Hnot | count_log..].
Qed.

(** X2: as long as a run does not terminate the session, the count of
    correct answers has grown by exactly the number of Correct transitions
    taken during the run; in particular it has not gone down. *)
Theorem correct_count_counts_correct_transitions (es : list Event) (s : Store)
    (Hrun : ¬ terminated (run_log es s)) :
  practiceCorrectQuestionCount (state (run es s))
    = practiceCorrectQuestionCount (state s)
      + Z.of_nat (correct_transitions (run_log es s)) ∧
  practiceCorrectQuestionCount (state s)
    ≤ practiceCorrectQuestionCount (state (run es s)).
Proof.
  assert (Heq : practiceCorrectQuestionCount (state (run es s))
                = practiceCorrectQuestionCount (state s)
                  + Z.of_nat (correct_transitions (run_log es s))).
  { revert s Hrun. induction es as [|e es IH]; intros s Hrun.
    - count_log.
    - simpl in *. unfold terminated in Hrun. rewrite elem_of_app in Hrun.
      rewrite IH by (intros H; apply Hrun; right; exact H).
      rewrite step_counts_correct_transitions by (intros H; apply Hrun; left; exact H).
      unfold correct_transitions. rewrite filter_app, length_app. lia. }
  split; [exact Heq | lia].
Qed.

(** X3: the mode, the target question count and the practice time are
    changed by their own setter and by nothing else: every other action,
    mutation or timer firing leaves them as they were, [init] and the
    termination included. *)
Theorem configuration_changed_only_by_setters (e : Event) (s : Store) :
  let s' := state (final (step e s)) in
  practiceMode s' =
    match e with DispatchSetPracticeMode m => m | _ => practiceMode (state s) end ∧
  practiceQuestionCount s' =
    match e with
    | DispatchSetPracticeQuestionCount n => n
    | _ => practiceQuestionCount (state s)
    end ∧
  practiceTime s' =
    match e with DispatchSetPracticeTime t => t | _ => practiceTime (state s) end.
Proof.
  assert (Htick : practiceMode (state (final (practiceTimeTick s))) = practiceMode (state s) ∧
            practiceQuestionCount (state (final (practiceTimeTick s)))
              = practiceQuestionCount (state s) ∧
            practiceTime (state (final (practiceTimeTick s))) = practiceTime (state s)).
  { destruct (decide (practiceTimeLeft (state s) - 1 = 0)) as [Hz|Hz].
    - rewrite (tick_reaching_zero s Hz). repeat split.
    - rewrite (tick_above_or_below_zero s Hz). repeat split. }
  destruct e; unfold step; cbv zeta.
  - destruct (decide (practiceMode (state s) = TIME)) as [Hm|Hm].
    + rewrite (init_in_time_mode options s Hm). repeat split.
    + rewrite (init_in_other_mode options s Hm). repeat split.
  - repeat split.
  - repeat split.
  - destruct (checkAnswer_cases s) as [-> | [-> | ->]]; repeat split.
  - repeat split.
  - repeat split.
  - repeat split.
  - repeat split.
  - repeat split.
  - repeat split.
  - repeat split.
  - exact Htick.
  - repeat split.
  - repeat split.
  - unfold fire. destruct (timers s !! id) as [[|]|]; [exact Htick | repeat split..].
Qed.

(** *** Timers, the stored id and the feedback flag *)

Lemma tick_timer_effect (s : Store) : timer_effect s (final (practiceTimeTick s)).
Proof.
  destruct (decide (practiceTimeLeft (state s) - 1 = 0)) as [Hz|Hz].
  - rewrite (tick_reaching_zero s Hz). apply effect_finished; reflexivity.
  - rewrite (tick_above_or_below_zero s Hz). apply effect_none; reflexivity.
Qed.

Lemma step_timer_effect (e : Event) (s : Store) :
  timer_effect s (final (step e s)).
Proof.
  destruct e; unfold step.
  - destruct (decide (practiceMode (state s) = TIME)) as [Hm|Hm].
    + rewrite (init_in_time_mode options s Hm). apply effect_armed; reflexivity.
    + rewrite (init_in_other_mode options s Hm). apply effect_none; reflexivity.
  - apply effect_none; reflexivity.
  - apply effect_none; reflexivity.
  - destruct (checkAnswer_cases s) as [-> | [-> | ->]].
    + apply effect_feedback; reflexivity.
    + apply effect_feedback; reflexivity.
    + apply effect_none; reflexivity.
  - apply effect_feedback; reflexivity.
  - apply effect_feedback; reflexivity.
  - apply effect_none; reflexivity.
  - apply effect_none; reflexivity.
  - apply effect_none; reflexivity.
  - apply effect_none; reflexivity.
  - apply effect_finished; reflexivity.
  - apply tick_timer_effect.
  - apply effect_none; reflexivity.
  - apply effect_none; reflexivity.
  - unfold fire. destruct (timers s !! id) as [[|]|] eqn:Hid.
    + apply tick_timer_effect.
    + apply (effect_spent _ _ id); [exact Hid | reflexivity..].
    + apply effect_none; reflexivity.
Qed.

Lemma cancel_stored_keeps_feedback (s : Store) (id : positive) :
  timers_well_formed s →
  timers s !! id = Some ClearFeedbackTimeout →
  cancel (practiceTimerId (state s)) (timers s) !! id = Some ClearFeedbackTimeout.
Proof.
  intros [_ Hstored] Hid. destruct Hstored as [-> | (p & -> & Hp)]; [exact Hid|].
  simpl. rewrite lookup_delete_ne; [exact Hid|]. intros ->. congruence.
Qed.

Lemma effect_keeps_well_formed (s s' : Store) :
  timer_effect s s' → timers_well_formed s → timers_well_formed s'.
Proof.
  intros Heff [Hfresh Hstored].
  assert (Hnext : timers s !! next_timer s = None) by (apply Hfresh; lia).
  destruct Heff as [Ht Hn Hi _ | Ht Hn Hi _ | Ht Hn Hi _ | Ht Hn Hi _ | id Hid Ht Hn Hi _];
    split; rewrite ?Ht, ?Hn, ?Hi.
  - exact Hfresh.
  - exact Hstored.
  - intros id Hle. rewrite lookup_insert_ne by lia. apply Hfresh. lia.
  - destruct Hstored as [H0 | (p & Hp & Htick)]; [left; exact H0|].
    right. exists p. split; [exact Hp|].
    rewrite lookup_insert_ne; [exact Htick|]. intros <-. congruence.
  - intros id Hle. destruct (practiceTimerId (state s)) as [|p|p]; simpl;
      [apply Hfresh, Hle | | apply Hfresh, Hle].
    destruct (decide (p = id)) as [->|Hne]; [apply lookup_delete_eq|].
    rewrite lookup_delete_ne by exact Hne. apply Hfresh, Hle.
  - left. reflexivity.
  - intros id Hle. rewrite lookup_insert_ne by lia. apply Hfresh. lia.
  - right. exists (next_timer s). split; [reflexivity | apply lookup_insert_eq].
  - intros k Hle. destruct (decide (id = k)) as [->|Hne]; [apply lookup_delete_eq|].
    rewrite lookup_delete_ne by exact Hne. apply Hfresh, Hle.
  - destruct Hstored as [H0 | (p & Hp & Htick)]; [left; exact H0|].
    right. exists p. split; [exact Hp|].
    rewrite lookup_delete_ne; [exact Htick|]. intros <-. congruence.
Qed.

Lemma effect_keeps_feedback_clearing (s s' : Store) :
  timer_effect s s' → timers_well_formed s →
  feedback_will_clear s → feedback_will_clear s'.
Proof.
  intros Heff Hwf Hfb. pose proof Hwf as [Hfresh Hstored].
  assert (Hnext : timers s !! next_timer s = None) by (apply Hfresh; lia).
  unfold feedback_will_clear in *.
  destruct Heff as [Ht Hn Hi Hf | Ht Hn Hi Hf | Ht Hn Hi Hf | Ht Hn Hi Hf | id Hid Ht Hn Hi Hf];
    rewrite Ht, Hf.
  - exact Hfb.
  - intros _. exists (next_timer s). apply lookup_insert_eq.
  - intros Hshow. destruct (Hfb Hshow) as [id Hid]. exists id.
    apply cancel_stored_keeps_feedback; assumption.
  - intros Hshow. destruct (Hfb Hshow) as [id Hid]. exists id.
    rewrite lookup_insert_ne; [exact Hid|]. intros <-. congruence.
  - discriminate.
Qed.

Lemma run_keeps_well_formed (es : list Event) :
  ∀ s, timers_well_formed s → feedback_will_clear s →
  timers_well_formed (run es s) ∧ feedback_will_clear (run es s).
Proof.
  induction es as [|e es IH]; intros s Hwf Hfb; [split; assumption|].
  simpl. apply IH.
  - exact (effect_keeps_well_formed _ _ (step_timer_effect e s) Hwf).
  - exact (effect_keeps_feedback_clearing _ _ (step_timer_effect e s) Hwf Hfb).
Qed.

Lemma initial_store_well_formed :
  timers_well_formed initial_store ∧ feedback_will_clear initial_store.
Proof.
  split; [split|].
  - intros id _. apply lookup_empty.
  - left. reflexivity.
  - intros H. discriminate H.
Qed.

(** X4: in every state a run of events reaches from the initial store,
    the stored timer id is 0 or names an armed tick source, and no id
    still to be handed out names a timer.  So [finishPracticeSession]
    there cancels a tick source or nothing: a pending feedback timeout
    survives it. *)
Theorem stored_timer_id_names_a_tick_source (es : list Event) :
  let s := run es initial_store in
  timers_well_formed s ∧
  (∀ id, timers s !! id = Some ClearFeedbackTimeout →
         timers (final (finishPracticeSession s)) !! id = Some ClearFeedbackTimeout) ∧
  (∀ id cb, timers (final (finishPracticeSession s)) !! id = Some cb →
            timers s !! id = Some cb).
Proof.
  intros s.
  destruct initial_store_well_formed as [Hwf0 Hfb0].
  destruct (run_keeps_well_formed es initial_store Hwf0 Hfb0) as [Hwf _].
  fold s in Hwf. split; [exact Hwf|]. split.
  - intros id Hid. apply cancel_stored_keeps_feedback; assumption.
  - intros id cb. simpl. destruct (practiceTimerId (state s)) as [|p|p]; simpl; try tauto.
    intros Hcb. destruct (decide (p = id)) as [->|Hne].
    + rewrite lookup_delete_eq in Hcb. discriminate.
    + rewrite lookup_delete_ne in Hcb by exact Hne. exact Hcb.
Qed.

(** X5: in every state a run of events reaches from the initial store
    with the feedback shown, a timeout is pending whose firing hides it:
    the feedback is never left on with nothing scheduled to clear it. *)
Theorem shown_feedback_has_pending_timeout (es : list Event)
    (Hshown : showingFeedback (state (run es initial_store)) = true) :
  ∃ id, timers (run es initial_store) !! id = Some ClearFeedbackTimeout ∧
        showingFeedback (state (final (fire id (run es initial_store)))) = false ∧
        timers (final (fire id (run es initial_store))) !! id = None.
Proof.
  destruct initial_store_well_formed as [Hwf0 Hfb0].
  destruct (run_keeps_well_formed es initial_store Hwf0 Hfb0) as [_ Hfb].
  destruct (Hfb Hshown) as [id Hid]. exists id. split; [exact Hid|].
  unfold fire. rewrite Hid. simpl. split; [reflexivity | apply lookup_delete_eq].
Qed.

Lemma fire_timeout (id : positive) (s : Store) :
  timers s !! id = Some ClearFeedbackTimeout →
  fire id s =
  mkResult (Some tt)
    {| state := Mutations.setShowingFeedback false (state s);
       timers := delete id (timers s);
       next_timer := next_timer s; draws := draws s |} [].
Proof. intros H. unfold fire. rewrite H. reflexivity. Qed.

(** X6: every answer transition schedules a feedback timeout of its own
    and cancels none.  After two transitions in a row two timeouts are
    pending, and when the browser fires the first, the feedback is hidden
    although the timeout of the second answer is still to come. *)
Theorem first_timeout_hides_later_feedback (first second : bool) (s : Store) :
  let id1 := next_timer s in
  let id2 := Pos.succ (next_timer s) in
  let s2 := run (answer_transitions [first; second]) s in
  let s3 := final (fire id1 s2) in
  (showingFeedback (state s2) = true ∧
   timers s2 !! id1 = Some ClearFeedbackTimeout ∧
   timers s2 !! id2 = Some ClearFeedbackTimeout) ∧
  (showingFeedback (state s3) = false ∧
   timers s3 !! id1 = None ∧
   timers s3 !! id2 = Some ClearFeedbackTimeout) ∧
  (showingFeedback (state (final (fire id2 s3))) = false ∧
   timers (final (fire id2 s3)) !! id2 = None).
Proof.
  assert (Hne : Pos.succ (next_timer s) ≠ next_timer s) by lia.
  assert (Hs2 : timers (run (answer_transitions [first; second]) s)
                = <[Pos.succ (next_timer s) := ClearFeedbackTimeout]>
                    (<[next_timer s := ClearFeedbackTimeout]> (timers s)) ∧
                showingFeedback (state (run (answer_transitions [first; second]) s)) = true).
  { destruct first, second; split; reflexivity. }
  destruct Hs2 as [Ht2 Hf2]. cbv zeta.
  set (s2 := run (answer_transitions [first; second]) s) in *.
  assert (H1 : timers s2 !! next_timer s = Some ClearFeedbackTimeout).
  { rewrite Ht2, lookup_insert_ne by exact Hne. apply lookup_insert_eq. }
  assert (H2 : timers s2 !! Pos.succ (next_timer s) = Some ClearFeedbackTimeout).
  { rewrite Ht2. apply lookup_insert_eq. }
  split; [split; [exact Hf2 | split; assumption]|].
  rewrite (fire_timeout _ s2 H1). cbn [final].
  set (s3 := {| state := Mutations.setShowingFeedback false (state s2);
                timers := delete (next_timer s) (timers s2);
                next_timer := next_timer s2; draws := draws s2 |}).
  assert (H3 : timers s3 !! Pos.succ (next_timer s) = Some ClearFeedbackTimeout).
  { subst s3. cbn [timers]. rewrite lookup_delete_ne by (intros E; apply Hne; symmetry; exact E).
    exact H2. }
  split; [split; [reflexivity | split; [apply lookup_delete_eq | exact H3]]|].
  rewrite (fire_timeout _ s3 H3). cbn [final state timers].
  split; [reflexivity | apply lookup_delete_eq].
Qed.

(** X7: a feedback timeout that fires after the session was finished
    hides the feedback and touches nothing else: in a store where the
    stored timer id and the browser agree, the timeout of an answer
    survives [finishPracticeSession], and when it fires the streak, the
    count, the time left and the timer id are still 0 and nothing is
    dispatched. *)
Theorem late_feedback_timeout_only_hides_feedback (correct : bool) (s : Store)
    (Hwf : timers_well_formed s) :
  let id := next_timer s in
  let s1 := final (finishPracticeSession (run (answer_transitions [correct]) s)) in
  let r := fire id s1 in
  timers s1 !! id = Some ClearFeedbackTimeout ∧
  showingFeedback (state s1) = true ∧
  state (final r) = Mutations.setShowingFeedback false (state s1) ∧
  (streak (state (final r)) = 0 ∧
   practiceCorrectQuestionCount (state (final r)) = 0 ∧
   practiceTimeLeft (state (final r)) = 0 ∧
   practiceTimerId (state (final r)) = 0) ∧
  dispatched r = [] ∧
  timers (final r) !! id = None.
Proof.
  cbv zeta.
  set (s0 := run (answer_transitions [correct]) s).
  assert (Hs0 : timers s0 = <[next_timer s := ClearFeedbackTimeout]> (timers s) ∧
                practiceTimerId (state s0) = practiceTimerId (state s) ∧
                next_timer s0 = Pos.succ (next_timer s) ∧
                showingFeedback (state s0) = true).
  { subst s0. destruct correct; repeat split. }
  destruct Hs0 as (Ht0 & Hi0 & Hn0 & Hf0).
  assert (Hwf0 : timers_well_formed s0).
  { apply (effect_keeps_well_formed s); [|exact Hwf].
    apply effect_feedback; assumption. }
  assert (Hid0 : timers s0 !! next_timer s = Some ClearFeedbackTimeout).
  { rewrite Ht0. apply lookup_insert_eq. }
  set (s1 := final (finishPracticeSession s0)).
  assert (H1 : timers s1 !! next_timer s = Some ClearFeedbackTimeout).
  { apply (cancel_stored_keeps_feedback s0); assumption. }
  split; [exact H1|]. split; [exact Hf0|].
  rewrite (fire_timeout _ s1 H1). cbn [final state dispatched timers].
  split; [reflexivity|]. split; [repeat split|].
  split; [reflexivity | apply lookup_delete_eq].
Qed.

(** X8: arming and cancelling undo each other in the browser: when
    [init] runs in time mode and the id it is about to receive names no
    timer, [finishPracticeSession] right after it leaves the timers
    exactly as they were before [init], and the stored id at 0. *)
Theorem init_then_finish_restores_timers (options : PracticeOptions) (s : Store)
    (Hmode : practiceMode (state s) = TIME)
    (Hfresh : timers s !! next_timer s = None) :
  let s' := final (finishPracticeSession (final (init options s))) in
  timers s' = timers s ∧
  practiceTimerId (state s') = 0 ∧
  dispatched (finishPracticeSession (final (init options s))) = [FINISH_PRACTICE_SESSION].
Proof.
  rewrite (init_in_time_mode options s Hmode). simpl.
  split; [apply delete_insert_id, Hfresh | split; reflexivity].
Qed.

Lemma ticks_below_zero (n : nat) :
  ∀ s, practiceTimeLeft (state s) ≤ 0 →
  let s' := run (ticks n) s in
  practiceTimeLeft (state s') = practiceTimeLeft (state s) - Z.of_nat n ∧
  timers s' = timers s ∧
  streak (state s') = streak (state s) ∧
  practiceCorrectQuestionCount (state s') = practiceCorrectQuestionCount (state s) ∧
  practiceTimerId (state s') = practiceTimerId (state s) ∧
  run_log (ticks n) s = replicate n PRACTICE_TIME_TICK.
Proof.
  induction n as [|n IH]; intros s Hle.
  - simpl. repeat split. lia.
  - assert (Hz : practiceTimeLeft (state s) - 1 ≠ 0) by lia.
    change (run (ticks (S n)) s) with (run (ticks n) (final (practiceTimeTick s))).
    change (run_log (ticks (S n)) s)
      with (dispatched (practiceTimeTick s)
            ++ run_log (ticks n) (final (practiceTimeTick s))).
    rewrite (tick_above_or_below_zero s Hz). cbn [final dispatched].
    set (s1 := {| state := Mutations.setPracticeTimeLeft _ _; timers := timers s;
                  next_timer := next_timer s; draws := draws s |}).
    assert (Hle1 : practiceTimeLeft (state s1) ≤ 0) by (subst s1; simpl; lia).
    destruct (IH s1 Hle1) as (Hl & Ht & Hs & Hc & Hi & Hlog).
    cbv zeta. rewrite Hl, Ht, Hs, Hc, Hi, Hlog. subst s1. simpl.
    repeat split. lia.
Qed.

(** X9: a finished session is not protected from ticks: [n] ticks that
    reach the store after [finishPracticeSession] (from a tick source
    still armed, or dispatched by hand) bring the time left to [-n], and
    none of them terminates the session again; the counters stay at 0. *)
Theorem ticks_after_finish_count_below_zero (n : nat) (s : Store) :
  let s0 := final (finishPracticeSession s) in
  let s' := run (ticks n) s0 in
  practiceTimeLeft (state s') = - Z.of_nat n ∧
  ¬ terminated (run_log (ticks n) s0) ∧
  streak (state s') = 0 ∧
  practiceCorrectQuestionCount (state s') = 0 ∧
  practiceTimerId (state s') = 0 ∧
  timers s' = timers s0.
Proof.
  cbv zeta.
  destruct (ticks_below_zero n (final (finishPracticeSession s)))
    as (Hl & Ht & Hs & Hc & Hi & Hlog); [simpl; lia|].
  cbv zeta in *. rewrite Hl, Ht, Hs, Hc, Hi, Hlog. simpl.
  repeat split. apply ticks_do_not_terminate.
Qed.

Lemma answer_transition_timers (correct : bool) (s : Store) :
  let s' := run (answer_transitions [correct]) s in
  timers s' = <[next_timer s := ClearFeedbackTimeout]> (timers s) ∧
  next_timer s' = Pos.succ (next_timer s) ∧
  practiceTimerId (state s') = practiceTimerId (state s) ∧
  showingFeedback (state s') = true.
Proof. destruct correct; repeat split. Qed.

(** X10: feedback timeouts pile up.  From a store where the stored timer
    id and the browser agree, a run of answer transitions, correct or
    not, leaves one more pending timer per answer and every timer that
    was pending before in place. *)
Theorem answers_pile_up_timeouts (verdicts : list bool) (s : Store)
    (Hwf : timers_well_formed s) :
  let s' := run (answer_transitions verdicts) s in
  size (timers s') = (size (timers s) + length verdicts)%nat ∧
  (∀ id cb, timers s !! id = Some cb → timers s' !! id = Some cb) ∧
  timers_well_formed s'.
Proof.
  revert s Hwf. induction verdicts as [|correct verdicts IH]; intros s Hwf.
  - simpl. split; [lia|]. split; [tauto | exact Hwf].
  - change (run (answer_transitions (correct :: verdicts)) s)
      with (run (answer_transitions verdicts) (run (answer_transitions [correct]) s)).
    destruct (answer_transition_timers correct s) as (Ht & Hn & Hi & Hf).
    cbv zeta in *. set (s1 := run (answer_transitions [correct]) s) in *.
    assert (Hnext : timers s !! next_timer s = None) by (apply Hwf; lia).
    assert (Hwf1 : timers_well_formed s1).
    { apply (effect_keeps_well_formed s); [|exact Hwf].
      apply effect_feedback; assumption. }
    destruct (IH s1 Hwf1) as (Hsize & Hkeep & Hwf').
    split; [|split; [|exact Hwf']].
    + rewrite Hsize, Ht, map_size_insert_None by exact Hnext. simpl. lia.
    + intros id cb Hid. apply Hkeep. rewrite Ht.
      rewrite lookup_insert_ne; [exact Hid|]. intros <-. congruence.
Qed.

(** X11: a configuration setter does not reach a countdown that is
    running.  After [init] in time mode with practice time [T ≥ 1],
    switching the mode, the question count or the practice time leaves the
    tick source armed and the time left at [T]: the session still ends on
    the [T]-th tick and not before, whatever the mode and the practice
    time then say. *)
Theorem setter_does_not_reach_running_countdown
    (options : PracticeOptions) (e : Event) (n : nat) (s : Store)
    (Hmode : practiceMode (state s) = TIME)
    (He : configuration_setter e)
    (HT : Z.of_nat (S n) = practiceTime (state s)) :
  let id := next_timer s in
  let s0 := final (step e (final (init options s))) in
  (timers s0 !! id = Some TickInterval ∧
   practiceTimeLeft (state s0) = practiceTime (state s)) ∧
  ¬ terminated (run_log (firings n id) s0) ∧
  terminated (dispatched (fire id (run (firings n id) s0))) ∧
  timers (final (fire id (run (firings n id) s0))) !! id = None.
Proof.
  cbv zeta. set (s0 := final (step e (final (init options s)))).
  assert (Hs0 : timers s0 = <[next_timer s := TickInterval]> (timers s) ∧
                practiceTimeLeft (state s0) = practiceTime (state s) ∧
                practiceTimerId (state s0) = Z.pos (next_timer s)).
  { subst s0. rewrite (init_in_time_mode options s Hmode).
    destruct e; simpl in He; try contradiction; repeat split. }
  destruct Hs0 as (Ht0 & Hl0 & Hi0).
  assert (Hid : timers s0 !! next_timer s = Some TickInterval).
  { rewrite Ht0. apply lookup_insert_eq. }
  destruct (firings_before_zero (next_timer s) n s0 Hid)
    as (Hl & _ & Hti & Htm & Hlog).
  { intros k Hk. rewrite Hl0. lia. }
  cbv zeta in *. set (sn := run (firings n (next_timer s)) s0) in *.
  assert (Hidn : timers sn !! next_timer s = Some TickInterval) by (rewrite Htm; exact Hid).
  assert (Hz : practiceTimeLeft (state sn) - 1 = 0) by lia.
  split; [split; assumption|].
  split; [rewrite Hlog; apply ticks_do_not_terminate|].
  rewrite (fire_interval _ sn Hidn), (tick_reaching_zero sn Hz). cbn [dispatched final].
  split; [apply tick_and_finish_terminated|].
  simpl. rewrite Hti, Hi0. simpl. apply lookup_delete_eq.
Qed.

(** *** The operators and the challenge engine *)

Lemma filter_other_absent (op : Operator) (l : list Operator) :
  op ∉ l → filter (λ o, o ≠ op) l = l.
Proof.
  induction l as [|x l IH]; intros Hnot; [reflexivity|].
  apply not_elem_of_cons in Hnot as [Hne Hnot].
  rewrite filter_cons_True by (intros E; apply Hne; symmetry; exact E).
  rewrite IH by exact Hnot. reflexivity.
Qed.

Lemma filter_other_fixed (op : Operator) (l : list Operator) :
  filter (λ o, o ≠ op) l = l → op ∉ l.
Proof.
  intros Heq Hin. rewrite <- Heq in Hin.
  apply list_elem_of_filter in Hin as [Hne _]. apply Hne. reflexivity.
Qed.

Lemma with_operators_same (st : PracticeState) :
  Mutations.with_operators (operators st) st = st.
Proof. destruct st. reflexivity. Qed.

(** X12: disabling an operator undoes enabling it exactly when the
    operator was not among the operators before; if it was, the round
    trip loses it.  Disabling an operator changes nothing exactly when it
    is absent. *)
Theorem disable_undoes_enable_iff_absent (op : Operator) (st : PracticeState) :
  (Mutations.setOperatorDisabled op (Mutations.setOperatorEnabled op st) = st
     ↔ op ∉ operators st) ∧
  (Mutations.setOperatorDisabled op st = st ↔ op ∉ operators st).
Proof.
  assert (Hround : operators (Mutations.setOperatorDisabled op
                                (Mutations.setOperatorEnabled op st))
                   = filter (λ o, o ≠ op) (operators st)).
  { simpl. rewrite filter_app.
    rewrite filter_cons_False by (intros H; apply H; reflexivity).
    rewrite filter_nil. apply app_nil_r. }
  split; split.
  - intros Heq. apply filter_other_fixed. rewrite <- Hround, Heq. reflexivity.
  - intros Hnot. unfold Mutations.setOperatorDisabled, Mutations.setOperatorEnabled.
    cbn [operators Mutations.with_operators]. rewrite filter_app.
    rewrite filter_cons_False by (intros H; apply H; reflexivity).
    rewrite filter_nil, app_nil_r, filter_other_absent by exact Hnot.
    destruct st. reflexivity.
  - intros Heq. apply filter_other_fixed.
    change (operators (Mutations.setOperatorDisabled op st) = operators st).
    rewrite Heq. reflexivity.
  - intros Hnot. unfold Mutations.setOperatorDisabled.
    rewrite filter_other_absent by exact Hnot. apply with_operators_same.
Qed.

(** X13: disabling is idempotent, two disablings commute, and what is
    left are the operators other than the disabled one, each as often as
    before and in the same order: nothing is added. *)
Theorem disable_idempotent_and_commutes (a b : Operator) (st : PracticeState) :
  Mutations.setOperatorDisabled a (Mutations.setOperatorDisabled a st)
    = Mutations.setOperatorDisabled a st ∧
  Mutations.setOperatorDisabled a (Mutations.setOperatorDisabled b st)
    = Mutations.setOperatorDisabled b (Mutations.setOperatorDisabled a st) ∧
  (∀ o, o ∈ operators (Mutations.setOperatorDisabled a st)
        ↔ o ≠ a ∧ o ∈ operators st) ∧
  (length (operators (Mutations.setOperatorDisabled a st))
     ≤ length (operators st))%nat.
Proof.
  unfold Mutations.setOperatorDisabled.
  cbn [operators Mutations.with_operators].
  split; [|split; [|split]].
  - rewrite list_filter_filter.
    rewrite (list_filter_iff (λ o, o ≠ a ∧ o ≠ a) (λ o, o ≠ a)) by tauto.
    reflexivity.
  - rewrite !list_filter_filter.
    rewrite (list_filter_iff (λ o, o ≠ a ∧ o ≠ b) (λ o, o ≠ b ∧ o ≠ a)) by tauto.
    reflexivity.
  - intros o. rewrite list_elem_of_filter. reflexivity.
  - apply length_filter.
Qed.

(** X14: no disabling is refused: the operators are empty after
    [setOperatorDisabled op] exactly when [op] was the only operator among
    them (or there was none), and the next [newQuestion] then asks the
    challenge engine for a challenge with no operator. *)
Theorem disabling_can_empty_operators (op : Operator) (s : Store) :
  let s1 := final (step (CommitSetOperatorDisabled op) s) in
  let s2 := final (newQuestion s1) in
  (operators (state s1) = [] ↔ ∀ o, o ∈ operators (state s) → o = op) ∧
  (operators (state s1) = [] →
   Getters.questionLatex (state s2)
     = latex (generateExpressionChallenge (difficulty (state s)) [] (draws s)) ∧
   infix (question (state s2))
     = infix (generateExpressionChallenge (difficulty (state s)) [] (draws s))).
Proof.
  cbv zeta. split.
  - simpl. split.
    + intros Hnil o Hin. destruct (decide (o = op)) as [->|Hne]; [reflexivity|].
      exfalso. eapply (not_elem_of_nil o). rewrite <- Hnil.
      apply list_elem_of_filter. split; assumption.
    + intros Hall. induction (operators (state s)) as [|x l IH]; [reflexivity|].
      rewrite filter_cons_False.
      * apply IH. intros o Hin. apply Hall. right. exact Hin.
      * intros Hne. apply Hne. apply Hall. left.
  - intros Hnil. unfold Getters.questionLatex. simpl in *. rewrite Hnil.
    split; reflexivity.
Qed.

(** X15: what [init] stores is what the challenge engine is asked with:
    after [init options], in either mode, [newQuestion] shows the challenge
    generated for the difficulty and the operators of [options], and an
    operator enabled in between is handed to the engine at the end of
    them. *)
Theorem configured_options_reach_generator
    (options : PracticeOptions) (op : Operator) (s : Store) :
  let s1 := run [DispatchInit options; DispatchNewQuestion] s in
  let s2 := run [DispatchInit options; CommitSetOperatorEnabled op;
                 DispatchNewQuestion] s in
  (Getters.questionLatex (state s1)
     = latex (generateExpressionChallenge (opt_difficulty options)
                (opt_operators options) (draws s)) ∧
   draws s1 = S (draws s)) ∧
  Getters.questionLatex (state s2)
    = latex (generateExpressionChallenge (opt_difficulty options)
               (opt_operators options ++ [op]) (draws s)) ∧
  (Getters.practiceTimeLeft (state s1) = Getters.practiceTime (state s) ∧
   Getters.streak (state s1) = Getters.streak (state s) ∧
   Getters.answer (state s1) = Getters.answer (state s)).
Proof.
  cbv zeta. unfold run, step.
  destruct (decide (practiceMode (state s) = TIME)) as [Hm|Hm].
  - rewrite (init_in_time_mode options s Hm). repeat split.
  - rewrite (init_in_other_mode options s Hm). repeat split.
Qed.

(** *** Answers and the streak *)

Lemma run_app (es1 es2 : list Event) :
  ∀ s, run (es1 ++ es2) s = run es2 (run es1 s).
Proof. induction es1 as [|e es1 IH]; intros s; [reflexivity | apply IH]. Qed.

Lemma answer_transitions_counters (verdicts : list bool) :
  ∀ s, let s' := run (answer_transitions verdicts) s in
  practiceCorrectQuestionCount (state s')
    = practiceCorrectQuestionCount (state s)
      + Z.of_nat (length (filter (λ b : bool, b = true) verdicts)) ∧
  practiceTimeLeft (state s') = practiceTimeLeft (state s) ∧
  practiceTimerId (state s') = practiceTimerId (state s).
Proof.
  induction verdicts as [|correct verdicts IH]; intros s.
  - simpl. repeat split. lia.
  - change (run (answer_transitions (correct :: verdicts)) s)
      with (run (answer_transitions verdicts) (run (answer_transitions [correct]) s)).
    destruct (IH (run (answer_transitions [correct]) s)) as (Hc & Hl & Hi).
    cbv zeta in *. rewrite Hc, Hl, Hi.
    destruct correct.
    + rewrite filter_cons_True by reflexivity. simpl. repeat split. lia.
    + rewrite filter_cons_False by discriminate. simpl. repeat split.
Qed.

(** X16: the streak is the number of correct answers since the last
    miss.  After any answers, one incorrect answer and then [k] correct
    ones, the streak is [k], whatever it was before; the count of correct
    answers has grown by all the correct answers of the run, and the
    countdown was not touched. *)
Theorem streak_counts_since_last_miss (before : list bool) (k : nat) (s : Store) :
  let s' := run (answer_transitions (before ++ false :: replicate k true)) s in
  streak (state s') = Z.of_nat k ∧
  practiceCorrectQuestionCount (state s')
    = practiceCorrectQuestionCount (state s)
      + Z.of_nat (length (filter (λ b : bool, b = true) before)) + Z.of_nat k ∧
  practiceTimeLeft (state s') = practiceTimeLeft (state s) ∧
  practiceTimerId (state s') = practiceTimerId (state s).
Proof.
  cbv zeta.
  assert (Hsplit : answer_transitions (before ++ false :: replicate k true)
                   = answer_transitions before
                     ++ DispatchOnIncorrect :: correct_answers k).
  { unfold answer_transitions, correct_answers.
    rewrite fmap_app, fmap_cons, fmap_replicate. reflexivity. }
  rewrite Hsplit, run_app.
  destruct (answer_transitions_counters before s) as (Hc & Hl & Hi).
  cbv zeta in *. set (s1 := run (answer_transitions before) s) in *.
  change (run (DispatchOnIncorrect :: correct_answers k) s1)
    with (run (correct_answers k) (final (onIncorrect s1))).
  destruct (correct_answers_counters k (final (onIncorrect s1))) as [Hs' Hc'].
  destruct (answer_transitions_counters (replicate k true) (final (onIncorrect s1)))
    as (_ & Hl' & Hi').
  assert (Hsame : answer_transitions (replicate k true) = correct_answers k).
  { unfold answer_transitions, correct_answers. apply fmap_replicate. }
  rewrite Hsame in Hl', Hi'.
  cbv zeta in *. rewrite Hs', Hc', Hl', Hi'. simpl.
  rewrite Hc, Hl, Hi. repeat split; lia.
Qed.

(** X17: [init] issues no challenge.  In either mode it dispatches
    nothing but itself, draws nothing from the challenge engine and leaves
    the question on display, the typed answer and the feedback flag as
    they were; the question stays the empty one of the initial store until
    [newQuestion] is dispatched. *)
Theorem init_issues_no_challenge (options : PracticeOptions) (s : Store) :
  let r := init options s in
  dispatched r = [INIT] ∧
  outcome r = Some tt ∧
  draws (final r) = draws s ∧
  question (state (final r)) = question (state s) ∧
  answer (state (final r)) = answer (state s) ∧
  showingFeedback (state (final r)) = showingFeedback (state s) ∧
  Getters.questionLatex (state (final (init options initial_store))) = None.
Proof.
  cbv zeta. destruct (decide (practiceMode (state s) = TIME)) as [Hm|Hm].
  - rewrite (init_in_time_mode options s Hm). repeat split.
  - rewrite (init_in_other_mode options s Hm). repeat split.
Qed.

End Properties.

(** ** Concrete runs *)

(** C1 fails as the spec words it: a session configured again after one
    correct answer (and no [finishPracticeSession] in between) still has
    streak 1 and one correct answer. *)
Lemma configure_keeps_counters_counterexample :
  let s := run alternating_challenges textual_evaluate
             [DispatchInit default_options; DispatchOnCorrect;
              DispatchInit default_options] initial_store in
  ¬ (practiceTimeLeft (state s) = practiceTime (state s) ∧
     streak (state s) = 0 ∧
     practiceCorrectQuestionCount (state s) = 0).
Proof. vm_compute. intros (_ & Hstreak & _). discriminate Hstreak. Qed.

Lemma consecutive_correct_submissions_witness :
  streak (state started_store) = 0 ∧
  practiceCorrectQuestionCount (state started_store) = 0 ∧
  all_correct alternating_challenges textual_evaluate ["1 + 2"; "7 - 4"] started_store ∧
  let s' := run alternating_challenges textual_evaluate
              (submissions ["1 + 2"; "7 - 4"]) started_store in
  streak (state s') = 2 ∧ practiceCorrectQuestionCount (state s') = 2.
Proof.
  assert (Hall : all_correct alternating_challenges textual_evaluate
                   ["1 + 2"; "7 - 4"] started_store).
  { vm_compute. repeat split. }
  split; [reflexivity|]. split; [reflexivity|]. split; [exact Hall|].
  exact (proj1 (consecutive_correct_submissions alternating_challenges textual_evaluate
                  ["1 + 2"; "7 - 4"] started_store eq_refl eq_refl Hall)).
Defined.

(** C3 fails as the spec words it: with practice time 0 in time mode the
    first tick does not end the session; it stores -1 and the timer stays
    armed. *)
Lemma zero_time_first_tick_counterexample :
  let s := run alternating_challenges textual_evaluate
             [DispatchSetPracticeTime 0; DispatchInit default_options] initial_store in
  let r := fire 1 s in
  practiceMode (state s) = TIME ∧ practiceTime (state s) = 0 ∧
  timers s !! 1%positive = Some TickInterval ∧
  ¬ terminated (dispatched r) ∧
  practiceTimeLeft (state (final r)) = -1 ∧
  timers (final r) !! 1%positive = Some TickInterval.
Proof.
  vm_compute. repeat split.
  intros Hin. apply list_elem_of_singleton in Hin. discriminate Hin.
Qed.

Lemma countdown_ends_on_exact_zero_witness :
  practiceMode (state initial_store) = TIME ∧
  let s0 := final (init default_options initial_store) in
  practiceTimeLeft (state s0) = 10 ∧
  terminated (dispatched (fire 1 (run alternating_challenges textual_evaluate
                                    (firings 9 1) s0))).
Proof.
  split; [reflexivity|].
  pose proof (countdown_ends_on_exact_zero alternating_challenges textual_evaluate
                default_options initial_store eq_refl) as (Hstart & _ & Hlast & _).
  split.
  - exact (proj1 Hstart).
  - exact (proj1 (Hlast 9%nat eq_refl)).
Defined.

(** C5 fails as the spec words it: on the initial store the answer is
    empty, the verifier cannot parse the text and throws, and the
    exception leaves [checkAnswer]; the Incorrect transition is not
    taken. *)
Lemma verifier_failure_escapes_counterexample :
  let r := checkAnswer alternating_challenges textual_evaluate initial_store in
  textual_evaluate (equality_text (state initial_store)) = Throws ∧
  ¬ (outcome r = Some tt ∧ ON_INCORRECT ∈ dispatched r).
Proof.
  vm_compute. split; [reflexivity|]. intros [Hout _]. discriminate Hout.
Qed.

(** C6 fails as the spec words it: lowering the practice time to 5 while
    the countdown stands at 10 leaves the time left above it. *)
Lemma setPracticeTime_breaks_bound_counterexample :
  let s := run alternating_challenges textual_evaluate
             [DispatchInit default_options; DispatchSetPracticeTime 5] initial_store in
  practiceTimeLeft (state s) = 10 ∧ practiceTime (state s) = 5 ∧
  ¬ (practiceTimeLeft (state s) ≤ practiceTime (state s)).
Proof. vm_compute. repeat split. intros H. apply H. reflexivity. Qed.

Lemma time_left_bounded_while_countdown_respected_witness :
  let es := [DispatchSetPracticeTime 20; DispatchInit default_options; Fire 1;
             DispatchSetPracticeTime 19; DispatchOnCorrect;
             DispatchFinishPracticeSession] in
  time_invariant (state initial_store) ∧
  countdown_respected alternating_challenges textual_evaluate es initial_store ∧
  practiceTimeLeft (state (run alternating_challenges textual_evaluate es initial_store))
    ≤ practiceTime (state (run alternating_challenges textual_evaluate es initial_store)).
Proof.
  intros es.
  assert (Hinv : time_invariant (state initial_store)).
  { unfold time_invariant. simpl. lia. }
  assert (Hes : countdown_respected alternating_challenges textual_evaluate es initial_store).
  { subst es. vm_compute. repeat split; intros Hgt; discriminate Hgt. }
  split; [exact Hinv|]. split; [exact Hes|].
  exact (proj1 (time_left_bounded_while_countdown_respected
                  alternating_challenges textual_evaluate es initial_store Hinv Hes)).
Defined.



Lemma operators_are_not_a_set_witness :
  Addition ∈ operators initial_state ∧
  operators (Mutations.setOperatorEnabled Addition initial_state)
    = [Addition; Subtraction; Addition] ∧
  operators (Mutations.setOperatorDisabled Addition
               (Mutations.setOperatorEnabled Addition initial_state))
    = [Subtraction].
Proof.
  assert (Hin : Addition ∈ operators initial_state) by (simpl; left).
  pose proof (operators_are_not_a_set Addition initial_state Hin)
    as (Hpush & _ & _ & _ & Hfilter & _).
  split; [exact Hin|]. split; [exact Hpush | exact Hfilter].
Defined.

(** ** Concrete runs for the further properties *)

Lemma started_store_well_formed : timers_well_formed started_store.
Proof.
  destruct initial_store_well_formed as [Hwf0 Hfb0].
  exact (proj1 (run_keeps_well_formed alternating_challenges textual_evaluate
                  [DispatchInit default_options; DispatchNewQuestion]
                  initial_store Hwf0 Hfb0)).
Qed.

Lemma counters_ordered_along_runs_witness :
  let es := [DispatchInit default_options; DispatchOnCorrect; DispatchOnCorrect;
             DispatchOnIncorrect; DispatchOnCorrect] in
  counters_ordered (state initial_store) ∧
  counters_ordered (state (run alternating_challenges textual_evaluate es initial_store)).
Proof.
  intros es.
  assert (H0 : counters_ordered (state initial_store)).
  { unfold counters_ordered. simpl. lia. }
  split; [exact H0|].
  exact (proj1 (counters_ordered_along_runs alternating_challenges textual_evaluate
                  es initial_store H0)).
Defined.

Lemma correct_count_counts_correct_transitions_witness :
  let es := [DispatchInit default_options; DispatchNewQuestion; DispatchSetAnswer "1 + 2";
             DispatchCheckAnswer; DispatchOnIncorrect; DispatchOnCorrect; Fire 1] in
  ¬ terminated (run_log alternating_challenges textual_evaluate es initial_store) ∧
  practiceCorrectQuestionCount
    (state (run alternating_challenges textual_evaluate es initial_store)) = 2.
Proof.
  intros es.
  assert (Hlog : ¬ terminated (run_log alternating_challenges textual_evaluate es
                                 initial_store)).
  { unfold terminated. apply (bool_decide_unpack _). vm_compute. exact I. }
  split; [exact Hlog|].
  exact (proj1 (correct_count_counts_correct_transitions alternating_challenges
                  textual_evaluate es initial_store Hlog)).
Defined.

Lemma stored_timer_id_names_a_tick_source_witness :
  let s := run alternating_challenges textual_evaluate
             [DispatchInit default_options; DispatchOnIncorrect] initial_store in
  timers s !! 2%positive = Some ClearFeedbackTimeout ∧
  timers (final (finishPracticeSession s)) !! 2%positive = Some ClearFeedbackTimeout.
Proof.
  intros s.
  assert (Hid : timers s !! 2%positive = Some ClearFeedbackTimeout) by reflexivity.
  split; [exact Hid|].
  exact (proj1 (proj2 (stored_timer_id_names_a_tick_source alternating_challenges
                         textual_evaluate
                         [DispatchInit default_options; DispatchOnIncorrect]))
           2%positive Hid).
Defined.

Lemma shown_feedback_has_pending_timeout_witness :
  let s := run alternating_challenges textual_evaluate
             [DispatchInit default_options; DispatchOnIncorrect] initial_store in
  showingFeedback (state s) = true ∧
  ∃ id, timers s !! id = Some ClearFeedbackTimeout ∧
        showingFeedback (state (final (fire id s))) = false ∧
        timers (final (fire id s)) !! id = None.
Proof.
  intros s. split; [reflexivity|].
  exact (shown_feedback_has_pending_timeout alternating_challenges textual_evaluate
           [DispatchInit default_options; DispatchOnIncorrect] eq_refl).
Defined.

Lemma late_feedback_timeout_only_hides_feedback_witness :
  timers_well_formed started_store ∧
  let s1 := final (finishPracticeSession
                     (run alternating_challenges textual_evaluate
                        (answer_transitions [true]) started_store)) in
  timers s1 !! 2%positive = Some ClearFeedbackTimeout ∧
  showingFeedback (state s1) = true ∧
  state (final (fire 2 s1)) = Mutations.setShowingFeedback false (state s1).
Proof.
  split; [exact started_store_well_formed|].
  pose proof (late_feedback_timeout_only_hides_feedback alternating_challenges
                textual_evaluate true started_store started_store_well_formed)
    as (H1 & H2 & H3 & _).
  split; [exact H1|]. split; [exact H2 | exact H3].
Defined.

Lemma init_then_finish_restores_timers_witness :
  practiceMode (state initial_store) = TIME ∧
  timers initial_store !! next_timer initial_store = None ∧
  timers (final (finishPracticeSession (final (init default_options initial_store))))
    = timers initial_store.
Proof.
  assert (Hfresh : timers initial_store !! next_timer initial_store = None)
    by apply lookup_empty.
  split; [reflexivity|]. split; [exact Hfresh|].
  exact (proj1 (init_then_finish_restores_timers default_options initial_store
                  eq_refl Hfresh)).
Defined.

Lemma answers_pile_up_timeouts_witness :
  timers_well_formed started_store ∧
  size (timers (run alternating_challenges textual_evaluate
                  (answer_transitions [true; false; true]) started_store))
    = (size (timers started_store) + 3)%nat.
Proof.
  split; [exact started_store_well_formed|].
  exact (proj1 (answers_pile_up_timeouts alternating_challenges textual_evaluate
                  [true; false; true] started_store started_store_well_formed)).
Defined.

Lemma setter_does_not_reach_running_countdown_witness :
  let e := DispatchSetPracticeMode QUESTIONS in
  let s0 := final (step alternating_challenges textual_evaluate e
                     (final (init default_options initial_store))) in
  practiceMode (state initial_store) = TIME ∧
  configuration_setter e ∧
  Z.of_nat 10 = practiceTime (state initial_store) ∧
  practiceMode (state s0) = QUESTIONS ∧
  ¬ terminated (run_log alternating_challenges textual_evaluate (firings 9 1) s0) ∧
  terminated (dispatched (fire 1 (run alternating_challenges textual_evaluate
                                    (firings 9 1) s0))).
Proof.
  intros e s0.
  pose proof (setter_does_not_reach_running_countdown alternating_challenges
                textual_evaluate default_options e 9 initial_store eq_refl I eq_refl)
    as (_ & Hbefore & Hlast & _).
  split; [reflexivity|]. split; [exact I|]. split; [reflexivity|].
  split; [reflexivity|]. split; [exact Hbefore | exact Hlast].
Defined.

Lemma disabling_can_empty_operators_witness :
  let s := final (init default_options initial_store) in
  let s1 := final (step alternating_challenges textual_evaluate
                     (CommitSetOperatorDisabled Addition) s) in
  operators (state s) = [Addition] ∧
  operators (state s1) = [] ∧
  Getters.questionLatex (state (final (newQuestion alternating_challenges s1)))
    = latex (alternating_challenges Normal [] 0%nat).
Proof.
  intros s s1.
  assert (Hnil : operators (state s1) = []) by reflexivity.
  split; [reflexivity|]. split; [exact Hnil|].
  exact (proj1 (proj2 (disabling_can_empty_operators alternating_challenges
                         textual_evaluate Addition s) Hnil)).
Defined.
